(** * python-odata: entity construction, hydration, identity and display

  A shallow embedding of [odata/entity.py] (class [EntityBase]) together
  with the collaborators it calls: the per-instance [EntityState], the
  property descriptors, and the URL join.

  Conventions.
  - Python values that travel on the wire are the JSON values of [Py.value];
    JSON numbers are restricted to integers.
  - A Python [dict] that is looked up or mutated by key is a [gmap]; a
    mutated argument is returned next to the result, so that the caller's
    view of its own mapping after the call is explicit.
  - What a navigation property's [instances_from_data] returns (an entity
    or a sequence of entities) is opaque to [entity.py]; it is the type
    parameter [R] throughout. *)

From Stdlib Require Import Ascii.
From stdpp Require Import gmap strings list fin_maps pretty.

Local Open Scope string_scope.

(** ** Python values *)

Module Py.

#[warnings="-register-all"]
Inductive value : Type :=
| VNone
| VBool (b : bool)
| VInt (z : Z)
| VStr (s : string)
| VList (l : list value)
| VDict (d : list (string * value)).

(** [bool(v)]: the truth value Python's [if v:] tests. *)
Definition truthy (v : value) : bool :=
  match v with
  | VNone => false
  | VBool b => b
  | VInt z => negb (z =? 0)%Z
  | VStr s => negb (String.eqb s "")
  | VList l => negb (Nat.eqb (length l) 0)
  | VDict d => negb (Nat.eqb (length d) 0)
  end.

(** [v is None] *)
Definition is_none (v : value) : bool :=
  match v with VNone => true | _ => false end.

(** [bool] is a subclass of [int]: [True == 1] and [False == 0]. *)
Definition as_number (v : value) : option Z :=
  match v with
  | VBool b => Some (if b then 1 else 0)%Z
  | VInt z => Some z
  | _ => None
  end.

(** [d.get(k)] on the association-list form of a nested dict. *)
Fixpoint dict_get {A : Type} (k : string) (d : list (string * A)) : option A :=
  match d with
  | [] => None
  | (k', v) :: d' => if String.eqb k k' then Some v else dict_get k d'
  end.

(** [a == b] on wire values. *)
Fixpoint py_eq (a b : value) : bool :=
  match a, b with
  | VNone, VNone => true
  | VBool x, VBool y => Bool.eqb x y
  | VBool x, VInt y => ((if x then 1 else 0) =? y)%Z
  | VInt x, VBool y => (x =? (if y then 1 else 0))%Z
  | VInt x, VInt y => (x =? y)%Z
  | VStr s, VStr t => String.eqb s t
  | VList la, VList lb =>
      (fix seq_eq (xs ys : list value) {struct xs} : bool :=
         match xs, ys with
         | [], [] => true
         | x :: xs', y :: ys' => py_eq x y && seq_eq xs' ys'
         | _, _ => false
         end) la lb
  | VDict da, VDict db =>
      Nat.eqb (length da) (length db) &&
      (fix items_eq (xs : list (string * value)) {struct xs} : bool :=
         match xs with
         | [] => true
         | (k, v) :: xs' =>
             match dict_get k db with
             | Some w => py_eq v w
             | None => false
             end && items_eq xs'
         end) da
  | _, _ => false
  end.

End Py.

Import Py.

(** ** Property descriptors (module [odata.property], consumed interface) *)

(** Modelled from the spec: the value-property descriptor, which is not part
  of [entity.py].  It exposes the wire field name, the primary-key flag and
  the value-escaping routine that renders a value as text for display. *)
Record Property : Type := {
name : string;
primary_key : bool;
escape_value : value → string
}.

(** Modelled from the spec: the navigation-property descriptor, which is not
  part of [entity.py].  It exposes the wire field name ([prop.name] in the
  source, [nav_name] here), the collection flag and the conversion of an
  embedded payload into instances. *)
Record NavigationProperty (R : Type) : Type := {
nav_name : string;
is_collection : bool;
instances_from_data : value → R
}.
Arguments nav_name {R} _.
Arguments is_collection {R} _.
Arguments instances_from_data {R} _ _.

(** A class attribute that is a declared property. *)
Inductive descriptor (R : Type) : Type :=
| ValueProperty (p : Property)
| Navigation (n : NavigationProperty R).
Arguments ValueProperty {R} p.
Arguments Navigation {R} n.

(** Class-level metadata of an entity type: the three [__odata_*__]
  attributes of [EntityBase], the class name, and the declared properties
  as an ordered table from attribute name to descriptor. *)
Record EntityClass (R : Type) : Type := {
__name__ : string;
__odata_url_base__ : string;
__odata_collection__ : string;
__odata_type__ : string;
declared_properties : list (string * descriptor R)
}.
Arguments __name__ {R} _.
Arguments __odata_url_base__ {R} _.
Arguments __odata_collection__ {R} _.
Arguments __odata_type__ {R} _.
Arguments declared_properties {R} _.

(** An entry of the navigation cache: [dict(single=x)] or
  [dict(collection=x)]. *)
Inductive nav_entry (R : Type) : Type :=
| single (x : R)
| collection (x : R).
Arguments single {R} x.
Arguments collection {R} x.

(** Exceptions the modelled code can raise. *)
Inductive exn : Type :=
| KeyError (k : string)
| ValueError (msg : string).

(** ** Entity State (module [odata.state], consumed interface) *)

Module EntityState.
Section State.
Context {R : Type}.

(** Modelled from the spec: the per-instance companion.  [entity] is what
    the owner back-reference is used for, namely reaching the owner's
    class; [data] is the spec's [values]. *)
Record t : Type := mk {
  entity : EntityClass R;
  data : gmap string value;
  dirty : gset string;
  nav_cache : gmap string (nav_entry R)
}.

(** Modelled from the spec: [EntityState(i)], a fresh companion with no
    values, nothing dirty and nothing resolved. *)
Definition __init__ (cls : EntityClass R) : t :=
  {| entity := cls; data := ∅; dirty := ∅; nav_cache := ∅ |}.

(** Modelled from the spec: keyed read of a scalar field, [es[key]]. *)
Definition __getitem__ (es : t) (key : string) : exn + value :=
  match data es !! key with
  | Some v => inr v
  | None => inl (KeyError key)
  end.

(** Modelled from the spec: keyed write of a scalar field, [es[key] = v].
    This is the baseline write used by hydration; it records the value and
    leaves the dirty set alone (marking dirty is the business of attribute
    assignment through the descriptor). *)
Definition __setitem__ (es : t) (key : string) (v : value) : t :=
  {| entity := entity es; data := <[key := v]> (data es);
     dirty := dirty es; nav_cache := nav_cache es |}.

(** [es.nav_cache[key] = entry] *)
Definition nav_cache_set (es : t) (key : string) (entry : nav_entry R) : t :=
  {| entity := entity es; data := data es;
     dirty := dirty es; nav_cache := <[key := entry]> (nav_cache es) |}.

(** Modelled from the spec: enumerate the declared value properties, in
    declaration order. *)
Fixpoint value_properties (attrs : list (string * descriptor R))
  : list (string * Property) :=
  match attrs with
  | [] => []
  | (key, ValueProperty p) :: rest => (key, p) :: value_properties rest
  | (_, Navigation _) :: rest => value_properties rest
  end.

Definition properties (es : t) : list (string * Property) :=
  value_properties (declared_properties (entity es)).

(** Modelled from the spec: enumerate the declared navigation properties,
    in declaration order. *)
Fixpoint nav_properties (attrs : list (string * descriptor R))
  : list (string * NavigationProperty R) :=
  match attrs with
  | [] => []
  | (key, Navigation n) :: rest => (key, n) :: nav_properties rest
  | (_, ValueProperty _) :: rest => nav_properties rest
  end.

Definition navigation_properties (es : t) : list (string * NavigationProperty R) :=
  nav_properties (declared_properties (entity es)).

(** Modelled from the spec: locate the declared primary-key property (name
    and descriptor), or [None] for "none declared". *)
Definition primary_key_property (es : t) : option (string * Property) :=
  List.find (λ kp, primary_key kp.2) (properties es).

(** Modelled from the spec: the primary-key value of the instance, null
    when no primary key is declared or no value is held for it. *)
Definition id (es : t) : value :=
  match primary_key_property es with
  | Some (_, prop) => default VNone (data es !! name prop)
  | None => VNone
  end.

End State.
Arguments t : clear implicits.
End EntityState.

(** Sequencing of computations that may raise: [x ← m; k] runs [k] on the
    result of [m] and propagates an exception of [m]. *)
#[global] Instance exn_bind : MBind (sum exn) := λ A B k m,
  match m with
  | inl e => inl e
  | inr a => k a
  end.

(** ** URL join (Python's [urllib.parse.urljoin], consumed interface)

    [entity.py] imports [urljoin] from the standard library.  The functions
    below follow [urllib/parse.py] of Python 3.11 function by function, on
    [str] arguments (text of code points below 256).  [urlsplit] calls two
    functions of other libraries, [unicodedata.normalize] and
    [ipaddress.ip_address]; they are taken as given, in [Environment]. *)

(** What [ipaddress.ip_address] returns. *)
Inductive ip_address_kind : Type :=
| IPv4Address
| IPv6Address.

Class Environment : Type := {
  (** [unicodedata.normalize('NFKC', s)] *)
  unicodedata_normalize_NFKC : string → string;
  (** [ipaddress.ip_address(s)], which raises [ValueError] on text that is
      neither an IPv4 nor an IPv6 address *)
  ipaddress_ip_address : string → exn + ip_address_kind
}.

Module Url.

Record ParseResult : Type := {
scheme : string;
netloc : string;
path : string;
params : string;
query : string;
fragment : string
}.

Definition uses_relative : list string :=
  [""; "ftp"; "http"; "gopher"; "nntp"; "imap"; "wais"; "file"; "https";
   "shttp"; "mms"; "prospero"; "rtsp"; "rtspu"; "sftp"; "svn"; "svn+ssh";
   "ws"; "wss"].

Definition uses_netloc : list string :=
  [""; "ftp"; "http"; "gopher"; "nntp"; "telnet"; "imap"; "wais"; "file";
   "mms"; "https"; "shttp"; "snews"; "prospero"; "rtsp"; "rtspu"; "rsync";
   "svn"; "svn+ssh"; "sftp"; "nfs"; "git"; "git+ssh"; "ws"; "wss"].

Definition uses_params : list string :=
  [""; "ftp"; "hdl"; "prospero"; "http"; "imap"; "https"; "shttp"; "rtsp";
   "rtspu"; "sip"; "sips"; "mms"; "sftp"; "tel"].

(** [s in l] for a list of strings *)
Definition mem (s : string) (l : list string) : bool :=
  existsb (String.eqb s) l.

Definition is_upper (c : ascii) : bool :=
  (65 <=? nat_of_ascii c)%nat && (nat_of_ascii c <=? 90)%nat.
Definition is_lower (c : ascii) : bool :=
  (97 <=? nat_of_ascii c)%nat && (nat_of_ascii c <=? 122)%nat.
Definition is_digit (c : ascii) : bool :=
  (48 <=? nat_of_ascii c)%nat && (nat_of_ascii c <=? 57)%nat.
Definition is_alpha (c : ascii) : bool := is_upper c || is_lower c.

(** membership in [scheme_chars]: letters, digits and [+-.] *)
Definition is_scheme_char (c : ascii) : bool :=
  is_alpha c || is_digit c
  || Ascii.eqb c "+" || Ascii.eqb c "-" || Ascii.eqb c ".".

Definition lower_char (c : ascii) : ascii :=
  if is_upper c then ascii_of_nat (nat_of_ascii c + 32) else c.

(** [s.lower()] *)
Fixpoint lower (s : string) : string :=
  match s with
  | EmptyString => EmptyString
  | String c s' => String (lower_char c) (lower s')
  end.

(** [all(c in scheme_chars for c in s)] *)
Fixpoint all_scheme_chars (s : string) : bool :=
  match s with
  | EmptyString => true
  | String c s' => is_scheme_char c && all_scheme_chars s'
  end.

(** [s.find(c, start)], with [None] for [-1] *)
Fixpoint find_from (c : ascii) (start : nat) (s : string) : option nat :=
  match s with
  | EmptyString => None
  | String a s' =>
      match start with
      | O => if Ascii.eqb a c then Some O else S <$> find_from c O s'
      | S n => S <$> find_from c n s'
      end
  end.

(** [s.rfind(c)], with [None] for [-1] *)
Fixpoint rfind (c : ascii) (s : string) : option nat :=
  match s with
  | EmptyString => None
  | String a s' =>
      match rfind c s' with
      | Some i => Some (S i)
      | None => if Ascii.eqb a c then Some O else None
      end
  end.

(** [s[:n]] *)
Fixpoint upto (n : nat) (s : string) : string :=
  match n, s with
  | S n', String a s' => String a (upto n' s')
  | _, _ => EmptyString
  end.

(** [s[n:]] *)
Fixpoint from (n : nat) (s : string) : string :=
  match n, s with
  | S n', String _ s' => from n' s'
  | _, _ => s
  end.

(** [s.split(c)] *)
Fixpoint split (c : ascii) (s : string) : list string :=
  match s with
  | EmptyString => [EmptyString]
  | String a s' =>
      if Ascii.eqb a c then EmptyString :: split c s'
      else match split c s' with
           | h :: t => String a h :: t
           | [] => [String a EmptyString]
           end
  end.

(** [sep.join(l)] *)
Definition join (sep : string) (l : list string) : string :=
  String.concat sep l.

(** [s.split(c, 1)] when [c in s] *)
Definition split_once (c : ascii) (s : string) : option (string * string) :=
  match find_from c 0 s with
  | Some i => Some (upto i s, from (S i) s)
  | None => None
  end.

(** [s.lstrip(_WHATWG_C0_CONTROL_OR_SPACE)] *)
Fixpoint lstrip_c0 (s : string) : string :=
  match s with
  | String a s' => if (nat_of_ascii a <=? 32)%nat then lstrip_c0 s' else s
  | EmptyString => EmptyString
  end.

(** removal of [_UNSAFE_URL_BYTES_TO_REMOVE]: tab, CR, LF *)
Fixpoint remove_unsafe (s : string) : string :=
  match s with
  | EmptyString => EmptyString
  | String a s' =>
      if (nat_of_ascii a =? 9)%nat || (nat_of_ascii a =? 10)%nat
         || (nat_of_ascii a =? 13)%nat
      then remove_unsafe s' else String a (remove_unsafe s')
  end.

(** [c in s] *)
Definition contains (c : ascii) (s : string) : bool :=
  match find_from c 0 s with Some _ => true | None => false end.

Definition min_opt (delim : nat) (w : option nat) : nat :=
  match w with Some i => Nat.min delim i | None => delim end.

Definition _splitnetloc (url : string) (start : nat) : string * string :=
  let delim := String.length url in
  let delim := min_opt delim (find_from "/" start url) in
  let delim := min_opt delim (find_from "?" start url) in
  let delim := min_opt delim (find_from "#" start url) in
  (from start (upto delim url), from delim url).

Definition nonempty (s : string) : bool := negb (String.eqb s "").

(** [s.rstrip(_WHATWG_C0_CONTROL_OR_SPACE)] *)
Fixpoint rstrip_c0 (s : string) : string :=
  match s with
  | EmptyString => EmptyString
  | String a s' =>
      match rstrip_c0 s' with
      | EmptyString =>
          if (nat_of_ascii a <=? 32)%nat then EmptyString else String a EmptyString
      | String _ _ as r => String a r
      end
  end.

(** [s.strip(_WHATWG_C0_CONTROL_OR_SPACE)] *)
Definition strip_c0 (s : string) : string := rstrip_c0 (lstrip_c0 s).

(** [s.isascii()] *)
Fixpoint isascii (s : string) : bool :=
  match s with
  | EmptyString => true
  | String a s' => (nat_of_ascii a <? 128)%nat && isascii s'
  end.

(** [s.replace(c, '')] *)
Fixpoint remove_char (c : ascii) (s : string) : string :=
  match s with
  | EmptyString => EmptyString
  | String a s' =>
      if Ascii.eqb a c then remove_char c s' else String a (remove_char c s')
  end.

(** [s.partition(c)]: the text before the first [c], whether [c] was found,
    and the text after it *)
Definition partition (c : ascii) (s : string) : string * bool * string :=
  match find_from c 0 s with
  | Some i => (upto i s, true, from (S i) s)
  | None => (s, false, EmptyString)
  end.

(** [s.rpartition(c)[2]]: the text after the last [c], or all of [s] *)
Definition rpartition_tail (c : ascii) (s : string) : string :=
  match rfind c s with
  | Some i => from (S i) s
  | None => s
  end.

Definition is_hex (c : ascii) : bool :=
  is_digit c
  || ((97 <=? nat_of_ascii c)%nat && (nat_of_ascii c <=? 102)%nat)
  || ((65 <=? nat_of_ascii c)%nat && (nat_of_ascii c <=? 70)%nat).

(** the text left after the longest run of [[a-fA-F0-9]] at the start *)
Fixpoint skip_hex (s : string) : string :=
  match s with
  | String a s' => if is_hex a then skip_hex s' else s
  | EmptyString => EmptyString
  end.

(** [re.match(r"\Av[a-fA-F0-9]+\..+\Z", hostname)]: a [v], at least one
    hexadecimal digit, a dot, and at least one character, none a newline *)
Definition match_ipvfuture (hostname : string) : bool :=
  match hostname with
  | String "v" rest =>
      let tail := skip_hex rest in
      negb (String.length tail =? String.length rest)%nat &&
      match tail with
      | String "." more => nonempty more && negb (contains "010" more)
      | _ => false
      end
  | _ => false
  end.

Section Parse.
Context `{Environment}.

Definition _checknetloc (netloc : string) : exn + unit :=
  if negb (nonempty netloc) || isascii netloc then inr tt
  else
    let n := remove_char "@" netloc in
    let n := remove_char ":" n in
    let n := remove_char "#" n in
    let n := remove_char "?" n in
    let netloc2 := unicodedata_normalize_NFKC n in
    if String.eqb n netloc2 then inr tt
    else if existsb (λ c, contains c netloc2) ["/"; "?"; "#"; "@"; ":"]%char
    then inl (ValueError ("netloc '" +:+ netloc +:+ "' contains invalid "
                          +:+ "characters under NFKC normalization"))
    else inr tt.

Definition _check_bracketed_host (hostname : string) : exn + unit :=
  if String.eqb (upto 1 hostname) "v" then
    if negb (match_ipvfuture hostname)
    then inl (ValueError "IPvFuture address is invalid")
    else inr tt
  else
    ip ← ipaddress_ip_address hostname;
    match ip with
    | IPv4Address => inl (ValueError "An IPv4 address cannot be in brackets")
    | IPv6Address => inr tt
    end.

Definition _check_bracketed_netloc (netloc : string) : exn + unit :=
  let hostname_and_port := rpartition_tail "@" netloc in
  let '(before_bracket, have_open_br, bracketed) :=
    partition "[" hostname_and_port in
  if have_open_br then
    if nonempty before_bracket then inl (ValueError "Invalid IPv6 URL")
    else
      let '(hostname, _, port) := partition "]" bracketed in
      if nonempty port && negb (String.eqb (upto 1 port) ":")
      then inl (ValueError "Invalid IPv6 URL")
      else _check_bracketed_host hostname
  else
    let '(hostname, _, port) := partition ":" hostname_and_port in
    _check_bracketed_host hostname.

(** [urlsplit(url, scheme)] *)
Definition urlsplit (url scheme : string)
  : exn + (string * string * string * string * string) :=
  let url := lstrip_c0 url in
  let scheme := strip_c0 scheme in
  let url := remove_unsafe url in
  let scheme := remove_unsafe scheme in
  let '(scheme, url) :=
    match find_from ":" 0 url, url with
    | Some (S i), String c0 _ =>
        if is_alpha c0 && all_scheme_chars (upto (S i) url)
        then (lower (upto (S i) url), from (S (S i)) url)
        else (scheme, url)
    | _, _ => (scheme, url)
    end in
  '(netloc, url) ←
    (if String.eqb (upto 2 url) "//" then
       let '(netloc, url) := _splitnetloc url 2 in
       if (contains "[" netloc && negb (contains "]" netloc))
          || (contains "]" netloc && negb (contains "[" netloc))
       then inl (ValueError "Invalid IPv6 URL")
       else
         _ ← (if contains "[" netloc && contains "]" netloc
              then _check_bracketed_netloc netloc else inr tt);
         inr (netloc, url)
     else inr (EmptyString, url));
  let '(url, fragment) :=
    match split_once "#" url with
    | Some (u, f) => (u, f)
    | None => (url, EmptyString)
    end in
  let '(url, query) :=
    match split_once "?" url with
    | Some (u, q) => (u, q)
    | None => (url, EmptyString)
    end in
  _ ← _checknetloc netloc;
  inr (scheme, netloc, url, query, fragment).

End Parse.

Definition _splitparams (url : string) : string * string :=
  match
    (if contains "/" url
     then find_from ";" (default 0 (rfind "/" url)) url
     else find_from ";" 0 url)
  with
  | Some i => (upto i url, from (S i) url)
  | None => (url, EmptyString)
  end.

Section Join.
Context `{Environment}.

Definition urlparse (url scheme : string) : exn + ParseResult :=
  '(scheme, netloc, url, query, fragment) ← urlsplit url scheme;
  let '(url, params) :=
    if mem scheme uses_params && contains ";" url
    then _splitparams url else (url, EmptyString) in
  inr {| scheme := scheme; netloc := netloc; path := url;
         params := params; query := query; fragment := fragment |}.

Definition urlunsplit (scheme netloc url query fragment : string) : string :=
  let url :=
    if nonempty netloc
       || (nonempty scheme && mem scheme uses_netloc
           && negb (String.eqb (upto 2 url) "//"))
    then
      let url :=
        if nonempty url && negb (String.eqb (upto 1 url) "/")
        then "/" +:+ url else url in
      "//" +:+ netloc +:+ url
    else url in
  let url := if nonempty scheme then scheme +:+ ":" +:+ url else url in
  let url := if nonempty query then url +:+ "?" +:+ query else url in
  let url := if nonempty fragment then url +:+ "#" +:+ fragment else url in
  url.

Definition urlunparse (r : ParseResult) : string :=
  let url :=
    if nonempty (params r) then path r +:+ ";" +:+ params r else path r in
  urlunsplit (scheme r) (netloc r) url (query r) (fragment r).

(** [segments[1:-1] = filter(None, segments[1:-1])] *)
Definition filter_inner (segments : list string) : list string :=
  match segments with
  | first :: (_ :: _) as rest =>
      (first :: List.filter nonempty (removelast rest) ++ [List.last rest ""])%list
  | _ => segments
  end.

(** the loop over [segments] that builds [resolved_path] *)
Fixpoint resolve (segments resolved_path : list string) : list string :=
  match segments with
  | [] => resolved_path
  | seg :: rest =>
      if String.eqb seg ".." then resolve rest (removelast resolved_path)
      else if String.eqb seg "." then resolve rest resolved_path
      else resolve rest (resolved_path ++ [seg])%list
  end.

Definition urljoin (base url : string) : exn + string :=
  if negb (nonempty base) then inr url
  else if negb (nonempty url) then inr base
  else
    b ← urlparse base "";
    u ← urlparse url (scheme b);
    if negb (String.eqb (scheme u) (scheme b)) || negb (mem (scheme u) uses_relative)
    then inr url
    else if mem (scheme u) uses_netloc && nonempty (netloc u)
    then inr (urlunparse u)
    else
      let netloc' := if mem (scheme u) uses_netloc then netloc b else netloc u in
      if negb (nonempty (path u)) && negb (nonempty (params u)) then
        inr (urlunparse
               {| scheme := scheme u; netloc := netloc'; path := path b;
                  params := params b;
                  query := if nonempty (query u) then query u else query b;
                  fragment := fragment u |})
      else
        let base_parts := split "/" (path b) in
        let base_parts :=
          if nonempty (List.last base_parts "") then removelast base_parts
          else base_parts in
        let segments :=
          if String.eqb (upto 1 (path u)) "/" then split "/" (path u)
          else filter_inner (base_parts ++ split "/" (path u))%list in
        let resolved_path := resolve segments [] in
        let resolved_path :=
          if mem (List.last segments "") ["."; ".."]
          then (resolved_path ++ [""])%list else resolved_path in
        let joined := join "/" resolved_path in
        inr (urlunparse
               {| scheme := scheme u; netloc := netloc';
                  path := if nonempty joined then joined else "/";
                  params := params u; query := query u;
                  fragment := fragment u |}).

End Join.

End Url.

(** ** Entity Base ([odata/entity.py]) *)

Module EntityBase.
Section Entity.
Context {R : Type} `{Environment}.

(** An instance: its only attribute is [__odata__], the companion state;
    [self.__class__] is the class the state was created for. *)
Record t : Type := mk {
  __odata__ : EntityState.t R
}.

Definition __class__ (self : t) : EntityClass R :=
  EntityState.entity (__odata__ self).

(** [urljoin(cls.__odata_url_base__, cls.__odata_collection__)] *)
Definition __odata_url__ (cls : EntityClass R) : exn + string :=
  Url.urljoin (__odata_url_base__ cls) (__odata_collection__ cls).

(** The loop "check for values from $expand": for each navigation
    property, in order, pop its payload from [raw_data] when present and
    store the converted payload in the navigation cache.  The loop threads
    the caller's mapping and the state. *)
Fixpoint expand_loop (navs : list (string * NavigationProperty R))
    (raw_data : gmap string value) (es : EntityState.t R)
  : gmap string value * EntityState.t R :=
  match navs with
  | [] => (raw_data, es)
  | (prop_name, prop) :: rest =>
      match raw_data !! nav_name prop with
      | Some expanded_data =>
          let raw_data := delete (nav_name prop) raw_data in
          let es :=
            if is_collection prop
            then EntityState.nav_cache_set es (nav_name prop)
                   (collection (instances_from_data prop expanded_data))
            else EntityState.nav_cache_set es (nav_name prop)
                   (single (instances_from_data prop expanded_data)) in
          expand_loop rest raw_data es
      | None => expand_loop rest raw_data es
      end
  end.

(** The loop [i.__odata__[prop.name] = raw_data.get(prop.name)] *)
Fixpoint hydrate_loop (props : list (string * Property))
    (raw_data : gmap string value) (es : EntityState.t R) : EntityState.t R :=
  match props with
  | [] => es
  | (prop_name, prop) :: rest =>
      hydrate_loop rest raw_data
        (EntityState.__setitem__ es (name prop)
           (default VNone (raw_data !! name prop)))
  end.

(** The loop [i.__odata__[prop.name] = None] *)
Fixpoint blank_loop (props : list (string * Property))
    (es : EntityState.t R) : EntityState.t R :=
  match props with
  | [] => es
  | (prop_name, prop) :: rest =>
      blank_loop rest (EntityState.__setitem__ es (name prop) VNone)
  end.

(** [cls.__new__(cls, from_data=raw_data)] when [from_data] is [Some], and
    [cls.__new__(cls)] when it is [None].  The second component is the
    caller's mapping as the call leaves it. *)
Definition __new__ (cls : EntityClass R) (from_data : option (gmap string value))
  : t * option (gmap string value) :=
  let es := EntityState.__init__ cls in
  match from_data with
  | Some raw_data =>
      let '(raw_data, es) :=
        expand_loop (EntityState.navigation_properties es) raw_data es in
      (mk (hydrate_loop (EntityState.properties es) raw_data es), Some raw_data)
  | None =>
      (mk (blank_loop (EntityState.properties es) es), None)
  end.

Definition __repr__ (self : t) : exn + string :=
  let clsname := __name__ (__class__ self) in
  match EntityState.primary_key_property (__odata__ self) with
  | Some (prop_name, prop) =>
      value ← EntityState.__getitem__ (__odata__ self) (name prop);
      if truthy value
      then inr ("<Entity(" +:+ clsname +:+ ":" +:+ escape_value prop value +:+ ")>")
      else inr ("<Entity(" +:+ clsname +:+ ")>")
  | None => inr ("<Entity(" +:+ clsname +:+ ")>")
  end.

(** What [__eq__] may be compared against: an entity instance, or any other
    value. *)
Inductive object : Type :=
| Instance (e : t)
| Other (v : value).

Definition __eq__ (self : t) (other : object) : bool :=
  match other with
  | Instance other =>
      let my_id := EntityState.id (__odata__ self) in
      if truthy my_id
      then py_eq my_id (EntityState.id (__odata__ other))
      else false
  | Other _ => false
  end.

End Entity.
Arguments t : clear implicits.
Arguments object : clear implicits.
End EntityBase.

(** ** Vocabulary for the statements *)

Section Vocabulary.
Context {R : Type}.

(** wire names of a list of value properties *)
Definition names (props : list (string * Property)) : list string :=
  (λ kp, name kp.2) <$> props.

(** wire names of a list of navigation properties *)
Definition nav_names (navs : list (string * NavigationProperty R)) : list string :=
  (λ kp, nav_name kp.2) <$> navs.

(** the first navigation property, in declaration order, with wire name [n] *)
Fixpoint find_nav (n : string) (navs : list (string * NavigationProperty R))
  : option (NavigationProperty R) :=
  match navs with
  | [] => None
  | (_, prop) :: rest =>
      if decide (nav_name prop = n) then Some prop else find_nav n rest
  end.

(** the value properties and the navigation properties of a class *)
Definition class_properties (cls : EntityClass R) : list (string * Property) :=
  EntityState.properties (EntityState.__init__ cls).

Definition class_navigation (cls : EntityClass R)
  : list (string * NavigationProperty R) :=
  EntityState.navigation_properties (EntityState.__init__ cls).

(** The entry [__new__] stores in the navigation cache for a property and its payload. *)
Definition stored_entry (prop : NavigationProperty R) (expanded_data : value)
  : nav_entry R :=
  if is_collection prop
  then collection (instances_from_data prop expanded_data)
  else single (instances_from_data prop expanded_data).

End Vocabulary.

(** ** A sample model: products with a category and orders *)

Module Example.

(** An integer property: its escape routine prints the integer in decimal. *)
Definition IntegerProperty (n : string) (pk : bool) : Property :=
  {| name := n; primary_key := pk;
     escape_value := λ v, match v with VInt z => pretty z | _ => "null" end |}.

(** A string property: its escape routine quotes the text. *)
Definition StringProperty (n : string) : Property :=
  {| name := n; primary_key := false;
     escape_value := λ v, match v with VStr s => "'" +:+ s +:+ "'" | _ => "null" end |}.

(** A stand-in for related instances: the embedded payloads, one per
    related entity, in the order received. *)
Definition related : Type := list value.

Definition NavProperty (n : string) (many : bool) : NavigationProperty related :=
  {| nav_name := n; is_collection := many;
     instances_from_data := λ d,
       if many then match d with VList l => l | _ => [] end else [d] |}.

Definition Product : EntityClass related :=
  {| __name__ := "Product";
     __odata_url_base__ := "https://svc/";
     __odata_collection__ := "Products";
     __odata_type__ := "ProductDataService.Objects.Product";
     declared_properties :=
       [ ("id", ValueProperty (IntegerProperty "Id" true));
         ("name", ValueProperty (StringProperty "ProductName"));
         ("category", Navigation (NavProperty "Category" false));
         ("orders", Navigation (NavProperty "Orders" true)) ] |}.

(** The same model addressed by an absolute collection name. *)
Definition Remote : EntityClass related :=
  {| __name__ := "Remote";
     __odata_url_base__ := "https://svc/";
     __odata_collection__ := "https://other.example/api/Things";
     __odata_type__ := "ODataSchema.Entity";
     declared_properties := [] |}.

(** A class without a primary key. *)
Definition Note : EntityClass related :=
  {| __name__ := "Note";
     __odata_url_base__ := "";
     __odata_collection__ := "Entities";
     __odata_type__ := "ODataSchema.Entity";
     declared_properties := [ ("text", ValueProperty (StringProperty "Text")) ] |}.

Definition order (n : Z) : value := VDict [("OrderId", VInt n)].

(** [{"Id": k, "ProductName": "Kettle", "Category": {...}, "Orders": [...]}] *)
Definition raw_product (k : value) : gmap string value :=
  <["Id" := k]> (<["ProductName" := VStr "Kettle"]>
  (<["Category" := VDict [("CategoryName", VStr "Kitchen")]]>
  (<["Orders" := VList [order 3; order 1; order 2]]> ∅))).

(** [Product.__new__(Product, from_data=raw_product(k))] *)
Definition product (k : value) : EntityBase.t related :=
  (EntityBase.__new__ Product (Some (raw_product k))).1.

(** [Product.__new__(Product)] *)
Definition blank_product : EntityBase.t related :=
  (EntityBase.__new__ Product None).1.

End Example.

(** ** The declarative base ([declarative_base] of [odata/entity.py]) *)

Section Base.
Context {R : Type}.

(** [class Entity(EntityBase): pass]: a subclass named [Entity] that
    declares nothing and inherits the three class attributes of
    [EntityBase]. *)
Definition declarative_base : EntityClass R :=
  {| __name__ := "Entity";
     __odata_url_base__ := "";
     __odata_collection__ := "Entities";
     __odata_type__ := "ODataSchema.Entity";
     declared_properties := [] |}.

(** The state of [cls.__new__(cls, from_data=raw)] and of [cls.__new__(cls)] *)
Definition state_of (cls : EntityClass R) (from_data : option (gmap string value))
  : EntityState.t R :=
  EntityBase.__odata__ (EntityBase.__new__ cls from_data).1.

(** The declared primary-key property of a class *)
Definition class_primary_key (cls : EntityClass R) : option (string * Property) :=
  EntityState.primary_key_property (EntityState.__init__ cls).

End Base.

(** Key values that are no containers: null, booleans, integers, text. *)
Definition scalar (v : value) : bool :=
  match v with
  | VNone | VBool _ | VInt _ | VStr _ => true
  | VList _ | VDict _ => false
  end.

(** ** Edge models: clashing and repeated wire names *)

Module Edge.
Import Example.

(** A class whose value property [label] and navigation property
    [category] both map to the wire name [Category]. *)
Definition Clash : EntityClass related :=
  {| __name__ := "Clash";
     __odata_url_base__ := "";
     __odata_collection__ := "Clashes";
     __odata_type__ := "ODataSchema.Entity";
     declared_properties :=
       [ ("id", ValueProperty (IntegerProperty "Id" true));
         ("label", ValueProperty (StringProperty "Category"));
         ("category", Navigation (NavProperty "Category" false)) ] |}.

(** A class with two navigation properties on the wire name [Orders], the
    first single-valued and the second a collection. *)
Definition Twice : EntityClass related :=
  {| __name__ := "Twice";
     __odata_url_base__ := "";
     __odata_collection__ := "Twices";
     __odata_type__ := "ODataSchema.Entity";
     declared_properties :=
       [ ("first_order", Navigation (NavProperty "Orders" false));
         ("orders", Navigation (NavProperty "Orders" true)) ] |}.

(** A class addressed relative to a service root several segments deep. *)
Definition Catalogue : EntityClass related :=
  {| __name__ := "Catalogue";
     __odata_url_base__ := "https://svc/odata/v4/$metadata";
     __odata_collection__ := "Products";
     __odata_type__ := "ODataSchema.Entity";
     declared_properties := [] |}.

(** A class whose primary key [id] and navigation property [owner] both
    map to the wire name [Id]. *)
Definition KeyClash : EntityClass related :=
  {| __name__ := "KeyClash";
     __odata_url_base__ := "";
     __odata_collection__ := "KeyClashes";
     __odata_type__ := "ODataSchema.Entity";
     declared_properties :=
       [ ("id", ValueProperty (IntegerProperty "Id" true));
         ("owner", Navigation (NavProperty "Id" false)) ] |}.

(** [{"Id": k, "ProductName": n, "Stock": 12}]: no embedded payload, and a
    field [Stock] that [Product] does not declare. *)
Definition raw_plain (k : value) (n : string) : gmap string value :=
  <["Id" := k]> (<["ProductName" := VStr n]> (<["Stock" := VInt 12]> ∅)).

End Edge.

(** ** Shapes of URLs, for the statements about addressing *)

Module Shape.
Import Url.

(** every character of [s] satisfies [P] *)
Fixpoint all_chars (P : ascii → bool) (s : string) : bool :=
  match s with
  | EmptyString => true
  | String c s' => P c && all_chars P s'
  end.

(** above the C0 controls and the space *)
Definition visible (c : ascii) : bool := (32 <? nat_of_ascii c)%nat.

(** a character of a path: visible and none of [?], [#], [;] *)
Definition path_char (c : ascii) : bool :=
  visible c && negb (Ascii.eqb c "?") && negb (Ascii.eqb c "#")
  && negb (Ascii.eqb c ";").

(** a character of a path segment: a path character other than [/] *)
Definition segment_char (c : ascii) : bool :=
  path_char c && negb (Ascii.eqb c "/").

(** a character of a relative name: a segment character other than [:] *)
Definition name_char (c : ascii) : bool :=
  segment_char c && negb (Ascii.eqb c ":").

(** a character of an authority without IP literal: visible ASCII, none of
    [/], [?], [#], and no bracket *)
Definition host_char (c : ascii) : bool :=
  visible c && (nat_of_ascii c <? 128)%nat
  && negb (Ascii.eqb c "/") && negb (Ascii.eqb c "?") && negb (Ascii.eqb c "#")
  && negb (Ascii.eqb c "[") && negb (Ascii.eqb c "]").

(** a path segment that resolution keeps: not empty, not [.] and not [..] *)
Definition plain_segment (s : string) : bool :=
  all_chars segment_char s && nonempty s
  && negb (String.eqb s ".") && negb (String.eqb s "..").

(** a simple relative name, such as a collection name *)
Definition simple_name (s : string) : bool :=
  all_chars name_char s && nonempty s
  && negb (String.eqb s ".") && negb (String.eqb s "..").

(** a scheme as [urlsplit] recognises it, in lower case *)
Definition scheme_token (s : string) : bool :=
  match s with
  | String c0 _ => is_alpha c0 && all_scheme_chars s && String.eqb (lower s) s
  | EmptyString => false
  end.

(** a path as it follows an authority: empty, or starting with a slash *)
Definition rooted_path (p : string) : bool :=
  all_chars path_char p && (negb (nonempty p) || String.eqb (upto 1 p) "/").

(** [d1/d2/.../dn/rest] *)
Fixpoint under (dirs : list string) (rest : string) : string :=
  match dirs with
  | [] => rest
  | d :: ds => d +:+ "/" +:+ under ds rest
  end.

End Shape.

(** An environment for the sample URLs.  None of them has a bracketed host
    or a non-ASCII authority, so [urlsplit] consults neither function on
    them; the normaliser is the identity and the address parser accepts
    nothing. *)
Definition sample_environment : Environment :=
  {| unicodedata_normalize_NFKC := λ s, s;
     ipaddress_ip_address := λ s,
       inl (ValueError "does not appear to be an IPv4 or IPv6 address") |}.

(** * Properties *)

(** ** Python values *)

Lemma truthy_not_none (v : value) : truthy v = true → v ≠ VNone.
Proof. intros Ht ->. discriminate Ht. Qed.

Lemma py_eq_none_r (v : value) : py_eq v VNone = true → v = VNone.
Proof. destruct v; simpl; congruence. Qed.

(** ** The loops of [__new__] *)

Section Loops.
Context {R : Type}.
Implicit Types (es : EntityState.t R) (raw : gmap string value).
Implicit Types (navs : list (string * NavigationProperty R)).
Implicit Types (props : list (string * Property)).

Lemma elem_of_names props key prop :
  (key, prop) ∈ props → name prop ∈ names props.
Proof.
  intros Hin. unfold names. apply list_elem_of_fmap.
  exists (key, prop). split; [reflexivity | exact Hin].
Qed.

Lemma elem_of_nav_names navs key prop :
  (key, prop) ∈ navs → nav_name prop ∈ nav_names navs.
Proof.
  intros Hin. unfold nav_names. apply list_elem_of_fmap.
  exists (key, prop). split; [reflexivity | exact Hin].
Qed.

Lemma names_cons key prop props :
  names ((key, prop) :: props) = name prop :: names props.
Proof. reflexivity. Qed.

Lemma nav_names_cons key prop navs :
  nav_names ((key, prop) :: navs) = nav_name prop :: nav_names navs.
Proof. reflexivity. Qed.

Lemma find_nav_None n navs : n ∉ nav_names navs ↔ find_nav n navs = None.
Proof.
  induction navs as [|[key prop] rest IH]; simpl.
  - split; [reflexivity | intros _; apply not_elem_of_nil].
  - rewrite not_elem_of_cons. destruct (decide (nav_name prop = n)) as [->|Hne].
    + split; [intros [Hn _]; congruence | discriminate].
    + rewrite IH. split; [tauto | intros Hf; split; congruence].
Qed.

Lemma find_nav_name n navs prop : find_nav n navs = Some prop → nav_name prop = n.
Proof.
  induction navs as [|[key p] rest IH]; simpl; [discriminate|].
  destruct (decide (nav_name p = n)); [congruence | exact IH].
Qed.

(** With pairwise distinct wire names, every declared navigation property
    is the first one under its wire name. *)
Lemma find_nav_NoDup navs key prop :
  NoDup (nav_names navs) → (key, prop) ∈ navs →
  find_nav (nav_name prop) navs = Some prop.
Proof.
  induction navs as [|[k p] rest IH]; simpl; intros Hnd Hin.
  - by apply elem_of_nil in Hin.
  - apply NoDup_cons in Hnd as [Hfresh Hnd].
    apply elem_of_cons in Hin as [Heq | Hin].
    + injection Heq as -> ->. by rewrite decide_True.
    + rewrite decide_False; [by apply IH|].
      intros Heq. apply Hfresh. rewrite Heq. by eapply elem_of_nav_names.
Qed.

(** The expansion loop leaves class, values and dirty set alone. *)
Lemma expand_loop_frame navs raw es :
  EntityState.entity (EntityBase.expand_loop navs raw es).2 = EntityState.entity es
  ∧ EntityState.data (EntityBase.expand_loop navs raw es).2 = EntityState.data es
  ∧ EntityState.dirty (EntityBase.expand_loop navs raw es).2 = EntityState.dirty es.
Proof.
  revert raw es. induction navs as [|[key prop] rest IH]; intros raw es; simpl.
  - done.
  - destruct (raw !! nav_name prop) as [payload|]; [|apply IH].
    destruct (is_collection prop).
    + exact (IH (delete (nav_name prop) raw)
               (EntityState.nav_cache_set es (nav_name prop)
                  (collection (instances_from_data prop payload)))).
    + exact (IH (delete (nav_name prop) raw)
               (EntityState.nav_cache_set es (nav_name prop)
                  (single (instances_from_data prop payload)))).
Qed.

(** What the expansion loop leaves of the caller's mapping. *)
Lemma expand_loop_raw navs raw es k :
  (EntityBase.expand_loop navs raw es).1 !! k
  = if decide (k ∈ nav_names navs) then None else raw !! k.
Proof.
  revert raw es. induction navs as [|[key prop] rest IH]; intros raw es;
    cbn [EntityBase.expand_loop]; [|rewrite nav_names_cons].
  - rewrite decide_False; [done | apply not_elem_of_nil].
  - destruct (raw !! nav_name prop) as [payload|] eqn:Hraw; rewrite IH.
    + destruct (decide (k ∈ nav_names rest)) as [Hin|Hout].
      * rewrite decide_True; [done | by apply elem_of_cons; right].
      * destruct (decide (k = nav_name prop)) as [->|Hne].
        -- rewrite lookup_delete_eq. rewrite decide_True; [done | by apply elem_of_cons; left].
        -- rewrite lookup_delete_ne by done.
           rewrite decide_False; [done|]. rewrite not_elem_of_cons. done.
    + destruct (decide (k ∈ nav_names rest)) as [Hin|Hout].
      * rewrite decide_True; [done | by apply elem_of_cons; right].
      * destruct (decide (k = nav_name prop)) as [->|Hne].
        -- rewrite Hraw. by destruct (decide _).
        -- rewrite decide_False; [done|]. rewrite not_elem_of_cons. done.
Qed.

(** What the expansion loop leaves in the navigation cache. *)
Lemma expand_loop_nav_cache navs raw es n :
  EntityState.nav_cache (EntityBase.expand_loop navs raw es).2 !! n
  = match raw !! n, find_nav n navs with
    | Some payload, Some prop => Some (stored_entry prop payload)
    | _, _ => EntityState.nav_cache es !! n
    end.
Proof.
  revert raw es. induction navs as [|[key prop] rest IH]; intros raw es; simpl.
  - by destruct (raw !! n).
  - destruct (raw !! nav_name prop) as [payload|] eqn:Hraw.
    + assert (EntityBase.expand_loop rest (delete (nav_name prop) raw)
                (if is_collection prop
                 then EntityState.nav_cache_set es (nav_name prop)
                        (collection (instances_from_data prop payload))
                 else EntityState.nav_cache_set es (nav_name prop)
                        (single (instances_from_data prop payload)))
              = EntityBase.expand_loop rest (delete (nav_name prop) raw)
                  (EntityState.nav_cache_set es (nav_name prop)
                     (stored_entry prop payload))) as ->.
      { unfold stored_entry. by destruct (is_collection prop). }
      rewrite IH. simpl. destruct (decide (nav_name prop = n)) as [<-|Hne].
      * rewrite lookup_delete_eq, Hraw, lookup_insert_eq. done.
      * rewrite lookup_delete_ne, lookup_insert_ne by done. done.
    + rewrite IH. destruct (decide (nav_name prop = n)) as [<-|Hne]; [|done].
      rewrite Hraw. done.
Qed.

(** The hydration loop leaves class, dirty set and navigation cache alone. *)
Lemma hydrate_loop_frame props raw es :
  EntityState.entity (EntityBase.hydrate_loop props raw es) = EntityState.entity es
  ∧ EntityState.dirty (EntityBase.hydrate_loop props raw es) = EntityState.dirty es
  ∧ EntityState.nav_cache (EntityBase.hydrate_loop props raw es) = EntityState.nav_cache es.
Proof.
  revert es. induction props as [|[key prop] rest IH]; intros es; simpl; [done|].
  apply (IH (EntityState.__setitem__ es (name prop) (default VNone (raw !! name prop)))).
Qed.

(** The values the hydration loop stores. *)
Lemma hydrate_loop_data props raw es k :
  EntityState.data (EntityBase.hydrate_loop props raw es) !! k
  = if decide (k ∈ names props) then Some (default VNone (raw !! k))
    else EntityState.data es !! k.
Proof.
  revert es. induction props as [|[key prop] rest IH]; intros es;
    cbn [EntityBase.hydrate_loop EntityBase.blank_loop]; [|rewrite names_cons].
  - rewrite decide_False; [done | apply not_elem_of_nil].
  - rewrite IH. cbn [EntityState.__setitem__ EntityState.data]. destruct (decide (k ∈ names rest)) as [Hin|Hout].
    + rewrite decide_True; [done | by apply elem_of_cons; right].
    + destruct (decide (k = name prop)) as [->|Hne].
      * rewrite lookup_insert_eq. rewrite decide_True; [done | by apply elem_of_cons; left].
      * rewrite lookup_insert_ne by done.
        rewrite decide_False; [done|]. rewrite not_elem_of_cons. done.
Qed.

Lemma blank_loop_frame props es :
  EntityState.entity (EntityBase.blank_loop props es) = EntityState.entity es
  ∧ EntityState.dirty (EntityBase.blank_loop props es) = EntityState.dirty es
  ∧ EntityState.nav_cache (EntityBase.blank_loop props es) = EntityState.nav_cache es.
Proof.
  revert es. induction props as [|[key prop] rest IH]; intros es; simpl; [done|].
  apply (IH (EntityState.__setitem__ es (name prop) VNone)).
Qed.

Lemma blank_loop_data props es k :
  EntityState.data (EntityBase.blank_loop props es) !! k
  = if decide (k ∈ names props) then Some VNone else EntityState.data es !! k.
Proof.
  revert es. induction props as [|[key prop] rest IH]; intros es;
    cbn [EntityBase.hydrate_loop EntityBase.blank_loop]; [|rewrite names_cons].
  - rewrite decide_False; [done | apply not_elem_of_nil].
  - rewrite IH. cbn [EntityState.__setitem__ EntityState.data]. destruct (decide (k ∈ names rest)) as [Hin|Hout].
    + rewrite decide_True; [done | by apply elem_of_cons; right].
    + destruct (decide (k = name prop)) as [->|Hne].
      * rewrite lookup_insert_eq. rewrite decide_True; [done | by apply elem_of_cons; left].
      * rewrite lookup_insert_ne by done.
        rewrite decide_False; [done|]. rewrite not_elem_of_cons. done.
Qed.

End Loops.

(** ** Construction and hydration *)

Section Construction.
Context {R : Type}.
Implicit Types (cls : EntityClass R) (raw : gmap string value).

(** [__new__] with raw data, in terms of its two loops. *)
Lemma new_from_data cls raw :
  EntityBase.__new__ cls (Some raw)
  = (EntityBase.mk
       (EntityBase.hydrate_loop (class_properties cls)
          (EntityBase.expand_loop (class_navigation cls) raw
             (EntityState.__init__ cls)).1
          (EntityBase.expand_loop (class_navigation cls) raw
             (EntityState.__init__ cls)).2),
     Some (EntityBase.expand_loop (class_navigation cls) raw
             (EntityState.__init__ cls)).1).
Proof.
  unfold EntityBase.__new__.
  fold (class_navigation cls).
  pose proof (expand_loop_frame (class_navigation cls) raw
                (EntityState.__init__ cls)) as (He & _ & _).
  destruct (EntityBase.expand_loop (class_navigation cls) raw
              (EntityState.__init__ cls)) as [raw' es'].
  simpl in *. unfold EntityState.properties. rewrite He. reflexivity.
Qed.

(** The caller's mapping after [__new__]: the navigation wire names are
    gone, every other key is as it was. *)
Lemma new_leftover cls raw :
  ∃ raw', (EntityBase.__new__ cls (Some raw)).2 = Some raw'
    ∧ ∀ k, raw' !! k
           = if decide (k ∈ nav_names (class_navigation cls)) then None
             else raw !! k.
Proof.
  rewrite new_from_data. eexists. split; [reflexivity|].
  intros k. apply expand_loop_raw.
Qed.

(** The values held after hydration. *)
Lemma new_data cls raw raw' k :
  (EntityBase.__new__ cls (Some raw)).2 = Some raw' →
  EntityState.data (EntityBase.__odata__ (EntityBase.__new__ cls (Some raw)).1) !! k
  = if decide (k ∈ names (class_properties cls))
    then Some (default VNone (raw' !! k)) else None.
Proof.
  rewrite new_from_data. cbn [fst snd EntityBase.__odata__].
  intros [= <-]. rewrite hydrate_loop_data.
  destruct (decide _); [done|].
  pose proof (expand_loop_frame (class_navigation cls) raw
                (EntityState.__init__ cls)) as (_ & Hd & _).
  rewrite Hd. apply lookup_empty.
Qed.

(** The navigation cache after hydration. *)
Lemma new_nav_cache cls raw n :
  EntityState.nav_cache
    (EntityBase.__odata__ (EntityBase.__new__ cls (Some raw)).1) !! n
  = match raw !! n, find_nav n (class_navigation cls) with
    | Some payload, Some prop => Some (stored_entry prop payload)
    | _, _ => None
    end.
Proof.
  rewrite new_from_data. cbn [fst snd EntityBase.__odata__].
  pose proof (hydrate_loop_frame (class_properties cls)
    (EntityBase.expand_loop (class_navigation cls) raw (EntityState.__init__ cls)).1
    (EntityBase.expand_loop (class_navigation cls) raw (EntityState.__init__ cls)).2)
    as (_ & _ & Hn).
  rewrite Hn, expand_loop_nav_cache. cbn [EntityState.__init__ EntityState.nav_cache].
  rewrite lookup_empty. by destruct (raw !! n), (find_nav n (class_navigation cls)).
Qed.

(** C2. Hydration reads every declared value property's wire name from the
    raw mapping as it is once the embedded navigation payloads have been
    popped (the caller's mapping [raw'] after the call), with null for an
    absent name, and stores it in the state's values.  Hence: a declared
    field whose wire name is not that of a navigation property holds the raw
    mapping's value for it; a declared field missing from the raw mapping
    holds null and nothing is raised; and no navigation wire name carries
    its payload among the values (it is either no key of the values or
    holds null). *)
Theorem C2_hydration_reads_stripped_mapping cls raw key prop :
  (key, prop) ∈ class_properties cls →
  let values :=
    EntityState.data (EntityBase.__odata__ (EntityBase.__new__ cls (Some raw)).1) in
  ∃ raw',
    (EntityBase.__new__ cls (Some raw)).2 = Some raw'
    ∧ (∀ k, raw' !! k
            = if decide (k ∈ nav_names (class_navigation cls)) then None
              else raw !! k)
    ∧ values !! name prop = Some (default VNone (raw' !! name prop))
    ∧ (name prop ∉ nav_names (class_navigation cls) →
       values !! name prop = Some (default VNone (raw !! name prop)))
    ∧ (raw !! name prop = None → values !! name prop = Some VNone)
    ∧ (∀ nkey nprop, (nkey, nprop) ∈ class_navigation cls →
       values !! nav_name nprop = None ∨ values !! nav_name nprop = Some VNone).
Proof.
  intros Hin values.
  destruct (new_leftover cls raw) as (raw' & Hraw' & Hstrip).
  assert (Hval : values !! name prop = Some (default VNone (raw' !! name prop))).
  { unfold values. rewrite (new_data cls raw raw') by exact Hraw'.
    rewrite decide_True; [done | by eapply elem_of_names]. }
  exists raw'. split_and!; try done.
  - intros Hnot. rewrite Hval, Hstrip. by rewrite decide_False.
  - intros Habsent. rewrite Hval, Hstrip, Habsent. by destruct (decide _).
  - intros nkey nprop Hnav. unfold values.
    rewrite (new_data cls raw raw') by exact Hraw'.
    destruct (decide _); [right | by left].
    rewrite Hstrip. rewrite decide_True; [done | by eapply elem_of_nav_names].
Qed.

(** C3 (amended). For every declared navigation property: if the raw
    mapping holds its wire name, the entry is removed from the mapping and
    the navigation cache holds, under that wire name, the payload converted
    by [instances_from_data] of the navigation property declared first under
    that wire name, exactly as returned, tagged [collection] when that first
    property's [is_collection] is set and [single] otherwise; the first
    property is the property itself whenever the declared navigation wire
    names are pairwise distinct.  If the raw mapping does not hold the wire
    name, the navigation cache has no entry for it. *)
Theorem C3_expanded_payloads_cached cls raw key prop :
  (key, prop) ∈ class_navigation cls →
  let i := (EntityBase.__new__ cls (Some raw)).1 in
  let cache := EntityState.nav_cache (EntityBase.__odata__ i) in
  (∀ payload,
     raw !! nav_name prop = Some payload →
     ∃ first,
       find_nav (nav_name prop) (class_navigation cls) = Some first
       ∧ (NoDup (nav_names (class_navigation cls)) → first = prop)
       ∧ cache !! nav_name prop
         = Some (if is_collection first
                 then collection (instances_from_data first payload)
                 else single (instances_from_data first payload))
       ∧ ∃ raw', (EntityBase.__new__ cls (Some raw)).2 = Some raw'
                 ∧ raw' !! nav_name prop = None)
  ∧ (raw !! nav_name prop = None → cache !! nav_name prop = None).
Proof.
  intros Hin i cache. split.
  - intros payload Hraw.
    destruct (find_nav (nav_name prop) (class_navigation cls)) as [first|] eqn:Hfirst.
    + exists first. split_and!; [done | | |].
      * intros Hnd. rewrite (find_nav_NoDup _ key prop Hnd Hin) in Hfirst.
        congruence.
      * unfold cache, i. rewrite new_nav_cache, Hraw, Hfirst.
        unfold stored_entry. by destruct (is_collection first).
      * destruct (new_leftover cls raw) as (raw' & Hraw' & Hstrip).
        exists raw'. split; [exact Hraw'|].
        rewrite Hstrip. rewrite decide_True; [done | by eapply elem_of_nav_names].
    + apply find_nav_None in Hfirst. exfalso. apply Hfirst.
      by eapply elem_of_nav_names.
  - intros Habsent. unfold cache, i. by rewrite new_nav_cache, Habsent.
Qed.

(** C4. Hydration from raw data marks nothing dirty: right after
    construction the dirty set is empty, whatever the class and the raw
    mapping. *)
Theorem C4_hydration_marks_nothing_dirty cls raw :
  EntityState.dirty (EntityBase.__odata__ (EntityBase.__new__ cls (Some raw)).1) = ∅.
Proof.
  rewrite new_from_data. cbn [fst EntityBase.__odata__].
  pose proof (hydrate_loop_frame (class_properties cls)
    (EntityBase.expand_loop (class_navigation cls) raw (EntityState.__init__ cls)).1
    (EntityBase.expand_loop (class_navigation cls) raw (EntityState.__init__ cls)).2)
    as (_ & Hd & _).
  pose proof (expand_loop_frame (class_navigation cls) raw
                (EntityState.__init__ cls)) as (_ & _ & Hd').
  rewrite Hd, Hd'. reflexivity.
Qed.

(** C5. Construction without raw data: every declared value property reads
    as null, the navigation cache is empty and the dirty set is empty. *)
Theorem C5_blank_instance cls :
  let es := EntityBase.__odata__ (EntityBase.__new__ cls None).1 in
  (∀ key prop, (key, prop) ∈ class_properties cls →
     EntityState.__getitem__ es (name prop) = inr VNone)
  ∧ EntityState.nav_cache es = ∅
  ∧ EntityState.dirty es = ∅.
Proof.
  intros es. unfold es, EntityBase.__new__. cbn [fst EntityBase.__odata__].
  fold (class_properties cls).
  pose proof (blank_loop_frame (class_properties cls) (EntityState.__init__ cls))
    as (_ & Hd & Hn).
  split_and!.
  - intros key prop Hin. unfold EntityState.__getitem__.
    rewrite blank_loop_data. rewrite decide_True; [done | by eapply elem_of_names].
  - by rewrite Hn.
  - by rewrite Hd.
Qed.

(** C10. Construction from a raw mapping mutates the caller's mapping: when
    the call returns, every wire name of a declared navigation property is
    no key of it (an embedded payload has been deleted), and every other
    key maps to what it mapped to before. *)
Theorem C10_new_strips_callers_mapping cls raw :
  ∃ raw',
    (EntityBase.__new__ cls (Some raw)).2 = Some raw'
    ∧ (∀ key prop, (key, prop) ∈ class_navigation cls →
         raw' !! nav_name prop = None)
    ∧ (∀ k, k ∉ nav_names (class_navigation cls) → raw' !! k = raw !! k).
Proof.
  destruct (new_leftover cls raw) as (raw' & Hraw' & Hstrip).
  exists raw'. split_and!; [exact Hraw' | |].
  - intros key prop Hin. rewrite Hstrip.
    rewrite decide_True; [done | by eapply elem_of_nav_names].
  - intros k Hk. rewrite Hstrip. by rewrite decide_False.
Qed.

End Construction.

(** ** URL join *)

Section UrlJoin.
Import Url Shape.

(** ** Text *)

Section Text.
Implicit Types (s t : string) (c : ascii) (P Q : ascii → bool).

Lemma append_cons a s t : String a s +:+ t = String a (s +:+ t).
Proof. reflexivity. Qed.

Lemma append_nil_l t : "" +:+ t = t.
Proof. reflexivity. Qed.

Lemma all_chars_impl P Q s :
  (∀ c, P c = true → Q c = true) → all_chars P s = true → all_chars Q s = true.
Proof.
  intros HPQ. induction s as [|a s IH]; simpl; [done|].
  rewrite !andb_true_iff. intros [Ha Hs]. split; [by apply HPQ | by apply IH].
Qed.

Lemma all_chars_app P s t :
  all_chars P (s +:+ t) = all_chars P s && all_chars P t.
Proof.
  induction s as [|a s IH]; [done|].
  rewrite append_cons. simpl. by rewrite IH, andb_assoc.
Qed.

Lemma append_nil_r s : s +:+ "" = s.
Proof. induction s as [|a s IH]; [done|]. by rewrite append_cons, IH. Qed.

Lemma append_assoc s t u : (s +:+ t) +:+ u = s +:+ (t +:+ u).
Proof. induction s as [|a s IH]; [done|]. by rewrite !append_cons, IH. Qed.

Lemma length_append s t :
  String.length (s +:+ t) = String.length s + String.length t.
Proof. induction s as [|a s IH]; [done|]. rewrite append_cons. simpl. by rewrite IH. Qed.

Lemma find_from_absent c s :
  all_chars (λ a, negb (Ascii.eqb a c)) s = true → find_from c 0 s = None.
Proof.
  induction s as [|a s IH]; simpl; [done|].
  rewrite andb_true_iff, negb_true_iff. intros [-> Hs]. by rewrite IH.
Qed.

Lemma find_from_first c s t :
  all_chars (λ a, negb (Ascii.eqb a c)) s = true →
  find_from c 0 (s +:+ String c t) = Some (String.length s).
Proof.
  induction s as [|a s IH].
  - rewrite append_nil_l. simpl. by rewrite Ascii.eqb_refl.
  - rewrite append_cons. simpl.
    rewrite andb_true_iff, negb_true_iff. intros [-> Hs]. by rewrite IH.
Qed.

Lemma find_from_skip c n s t :
  String.length s = n → find_from c n (s +:+ t) = (λ i, n + i) <$> find_from c 0 t.
Proof.
  revert n. induction s as [|a s IH]; intros n <-.
  - rewrite append_nil_l. simpl. by destruct (find_from c 0 t).
  - rewrite append_cons. simpl.
    rewrite (IH _ eq_refl). by destruct (find_from c 0 t).
Qed.

Lemma contains_absent c s :
  all_chars (λ a, negb (Ascii.eqb a c)) s = true → contains c s = false.
Proof. intros Hs. unfold contains. by rewrite find_from_absent. Qed.

Lemma split_once_absent c s :
  all_chars (λ a, negb (Ascii.eqb a c)) s = true → split_once c s = None.
Proof. intros Hs. unfold split_once. by rewrite find_from_absent. Qed.

Lemma upto_append s t : upto (String.length s) (s +:+ t) = s.
Proof.
  induction s as [|a s IH]; [by destruct t|].
  rewrite append_cons. simpl. by rewrite IH.
Qed.

Lemma from_append s t : from (String.length s) (s +:+ t) = t.
Proof. induction s as [|a s IH]; [by destruct t|]. by rewrite append_cons. Qed.

Lemma upto_length s : upto (String.length s) s = s.
Proof. rewrite <-(append_nil_r s) at 2. apply upto_append. Qed.

Lemma from_length s : from (String.length s) s = "".
Proof. rewrite <-(append_nil_r s) at 2. apply from_append. Qed.

Lemma lstrip_c0_visible a s : visible a = true → lstrip_c0 (String a s) = String a s.
Proof.
  unfold visible. simpl. intros Ha.
  apply Nat.ltb_lt in Ha. by rewrite (proj2 (Nat.leb_gt _ _) Ha).
Qed.

Lemma remove_unsafe_visible s : all_chars visible s = true → remove_unsafe s = s.
Proof.
  induction s as [|a s IH]; simpl; [done|].
  rewrite andb_true_iff. unfold visible at 1. intros [Ha Hs].
  apply Nat.ltb_lt in Ha.
  rewrite (proj2 (Nat.eqb_neq _ 9)), (proj2 (Nat.eqb_neq _ 10)),
    (proj2 (Nat.eqb_neq _ 13)) by lia.
  simpl. by rewrite IH.
Qed.

Lemma rstrip_c0_visible s : all_chars visible s = true → rstrip_c0 s = s.
Proof.
  induction s as [|a s IH]; simpl; [done|].
  rewrite andb_true_iff. unfold visible at 1. intros [Ha Hs].
  rewrite (IH Hs). destruct s; [|done].
  apply Nat.ltb_lt in Ha. by rewrite (proj2 (Nat.leb_gt _ _) Ha).
Qed.

Lemma strip_c0_visible s : all_chars visible s = true → strip_c0 s = s.
Proof.
  intros Hs. unfold strip_c0. destruct s as [|a s]; [done|].
  simpl in Hs. apply andb_true_iff in Hs as [Ha Hs'].
  rewrite (lstrip_c0_visible a s Ha). apply rstrip_c0_visible.
  simpl. by rewrite Ha, Hs'.
Qed.

End Text.

(** ** Character classes *)

Section Classes.
Implicit Types (s t : string) (c : ascii).

Lemma scheme_char_visible c : is_scheme_char c = true → visible c = true.
Proof. destruct c as [[] [] [] [] [] [] [] []]; vm_compute; congruence. Qed.

Lemma scheme_char_not_colon c :
  is_scheme_char c = true → negb (Ascii.eqb c ":") = true.
Proof. destruct c as [[] [] [] [] [] [] [] []]; vm_compute; congruence. Qed.

Lemma all_scheme_chars_all_chars s :
  all_scheme_chars s = all_chars is_scheme_char s.
Proof. induction s as [|a s IH]; simpl; [done|]. by rewrite IH. Qed.

Lemma isascii_all_chars s :
  isascii s = all_chars (λ c, (nat_of_ascii c <? 128)%nat) s.
Proof. induction s as [|a s IH]; simpl; [done|]. by rewrite IH. Qed.

Ltac by_class :=
  intros ?; unfold name_char, segment_char, path_char, host_char;
  rewrite ?andb_true_iff, ?negb_true_iff; tauto.

Lemma path_visible s : all_chars path_char s = true → all_chars visible s = true.
Proof. apply all_chars_impl. by_class. Qed.

Lemma path_without s c :
  c = "?"%char ∨ c = "#"%char ∨ c = ";"%char →
  all_chars path_char s = true →
  all_chars (λ a, negb (Ascii.eqb a c)) s = true.
Proof. intros [->|[->| ->]]; apply all_chars_impl; by_class. Qed.

Lemma segment_path s : all_chars segment_char s = true → all_chars path_char s = true.
Proof. apply all_chars_impl. by_class. Qed.

Lemma segment_without_slash s :
  all_chars segment_char s = true →
  all_chars (λ a, negb (Ascii.eqb a "/")) s = true.
Proof. apply all_chars_impl. by_class. Qed.

Lemma name_segment s : all_chars name_char s = true → all_chars segment_char s = true.
Proof. apply all_chars_impl. by_class. Qed.

Lemma name_without_colon s :
  all_chars name_char s = true →
  all_chars (λ a, negb (Ascii.eqb a ":")) s = true.
Proof. apply all_chars_impl. by_class. Qed.

Lemma host_visible s : all_chars host_char s = true → all_chars visible s = true.
Proof. apply all_chars_impl. by_class. Qed.

Lemma host_ascii s : all_chars host_char s = true → isascii s = true.
Proof. rewrite isascii_all_chars. apply all_chars_impl. by_class. Qed.

Lemma host_without s c :
  c = "/"%char ∨ c = "?"%char ∨ c = "#"%char ∨ c = "["%char ∨ c = "]"%char →
  all_chars host_char s = true →
  all_chars (λ a, negb (Ascii.eqb a c)) s = true.
Proof. intros [->|[->|[->|[->| ->]]]]; apply all_chars_impl; by_class. Qed.

Lemma scheme_token_inv s :
  scheme_token s = true →
  ∃ c0 rest, s = String c0 rest ∧ is_alpha c0 = true
    ∧ all_scheme_chars s = true ∧ lower s = s
    ∧ all_chars visible s = true
    ∧ all_chars (λ a, negb (Ascii.eqb a ":")) s = true.
Proof.
  destruct s as [|c0 rest]; [discriminate|]. unfold scheme_token.
  rewrite !andb_true_iff, String.eqb_eq. intros [[Ha Hs] Hl].
  exists c0, rest. split_and!; try done.
  - rewrite all_scheme_chars_all_chars in Hs.
    revert Hs. apply all_chars_impl, scheme_char_visible.
  - rewrite all_scheme_chars_all_chars in Hs.
    revert Hs. apply all_chars_impl, scheme_char_not_colon.
Qed.

Lemma relative_scheme_token s :
  mem s uses_relative = true → nonempty s = true →
  scheme_token s = true ∧ mem s uses_netloc = true.
Proof.
  unfold mem at 1. intros Hin Hne. apply existsb_exists in Hin as (x & Hin & Heq).
  apply String.eqb_eq in Heq. subst x.
  repeat (destruct Hin as [<-|Hin]; [first [discriminate Hne | by vm_compute]|]).
  destruct Hin.
Qed.

End Classes.

(** ** Parsing *)

Section Parsing.
Context `{Environment}.
Implicit Types (s t sch host p name d : string).

Lemma rooted_path_inv p :
  rooted_path p = true →
  all_chars path_char p = true ∧ (p = "" ∨ ∃ p', p = String "/" p').
Proof.
  unfold rooted_path. rewrite andb_true_iff, orb_true_iff. intros [Hc Hr].
  split; [done|]. destruct p as [|a p']; [by left|right].
  destruct Hr as [Hr|Hr]; [discriminate|].
  replace (upto 1 (String a p')) with (String a "") in Hr by (by destruct p').
  apply String.eqb_eq in Hr. injection Hr as ->. eauto.
Qed.

Lemma splitnetloc_authority host p :
  all_chars host_char host = true → rooted_path p = true →
  _splitnetloc (String "/" (String "/" (host +:+ p))) 2 = (host, p).
Proof.
  intros Hhost Hp. apply rooted_path_inv in Hp as [Hchars Hroot].
  unfold _splitnetloc.
  change (find_from ?c 2 (String "/" (String "/" ?x)))
    with (S <$> (S <$> find_from c 0 x)).
  rewrite (find_from_absent "?" (host +:+ p)), (find_from_absent "#" (host +:+ p)).
  2,3: rewrite all_chars_app, andb_true_iff; split;
       [apply host_without | apply path_without]; auto.
  cbn [fmap option_fmap option_map min_opt].
  destruct Hroot as [->|[p' ->]].
  - rewrite append_nil_r, (find_from_absent "/" host) by (apply host_without; auto).
    cbn [fmap option_fmap option_map min_opt].
    rewrite upto_length, from_length. reflexivity.
  - rewrite find_from_first by (apply host_without; auto).
    cbn [fmap option_fmap option_map min_opt String.length].
    rewrite length_append. cbn [String.length].
    replace (Nat.min _ _) with (S (S (String.length host))) by lia.
    cbn [upto from]. by rewrite upto_append, from_append.
Qed.

Lemma upto_2_authority s : upto 2 (String "/" (String "/" s)) = "//".
Proof. by destruct s. Qed.

Lemma upto_2_plain s :
  all_chars (λ a, negb (Ascii.eqb a "/")) s = true →
  String.eqb (upto 2 s) "//" = false.
Proof.
  destruct s as [|a s]; [done|]. simpl.
  rewrite andb_true_iff, negb_true_iff. intros [Ha _].
  destruct s; simpl; rewrite ?Ha; done.
Qed.

Lemma checknetloc_ascii host : isascii host = true → _checknetloc host = inr tt.
Proof. intros Hh. unfold _checknetloc. by rewrite Hh, orb_true_r. Qed.

(** Parsing [scheme://authority/path]. *)
Lemma urlsplit_authority sch host p d :
  scheme_token sch = true → all_chars host_char host = true →
  rooted_path p = true →
  urlsplit (sch +:+ "://" +:+ host +:+ p) d = inr (sch, host, p, "", "").
Proof.
  intros Hsch Hhost Hp.
  destruct (scheme_token_inv sch Hsch)
    as (c0 & rest & -> & Halpha & Hchars & Hlow & Hvis & Hcolon).
  destruct (rooted_path_inv p Hp) as [Hpchars _].
  set (X := String "/" (String "/" (host +:+ p))).
  set (U := String c0 (rest +:+ String ":" X)).
  change (String c0 rest +:+ "://" +:+ host +:+ p) with U.
  assert (Hall : all_chars visible U = true).
  { change U with (String c0 rest +:+ String ":" X).
    rewrite all_chars_app, Hvis. unfold X. cbn [all_chars andb].
    rewrite all_chars_app, (host_visible host Hhost), (path_visible p Hpchars).
    reflexivity. }
  assert (El : lstrip_c0 U = U).
  { apply lstrip_c0_visible. simpl in Hvis. by apply andb_true_iff in Hvis as [? _]. }
  assert (Er : remove_unsafe U = U) by (by apply remove_unsafe_visible).
  assert (Ef : find_from ":" 0 U = Some (S (String.length rest))).
  { change U with (String c0 rest +:+ String ":" X).
    by rewrite find_from_first. }
  assert (Eu : upto (S (String.length rest)) U = String c0 rest).
  { change U with (String c0 rest +:+ String ":" X).
    apply (upto_append (String c0 rest)). }
  assert (Efr : from (S (S (String.length rest))) U = X).
  { change U with (String c0 rest +:+ String ":" X).
    change (S (S (String.length rest)))
      with (S (String.length (String c0 rest))).
    change (from (S (String.length (String c0 rest))) (String c0 rest +:+ String ":" X))
      with (from (S (String.length rest)) (rest +:+ String ":" X)).
    replace (S (String.length rest)) with (String.length (rest +:+ ":"))
      by (rewrite length_append; simpl; lia).
    change (String ":" X) with (":" +:+ X). rewrite <-append_assoc.
    apply from_append. }
  unfold urlsplit. rewrite El, Er, Ef. unfold U at 1. cbv beta iota. fold U.
  rewrite Eu, Efr, Halpha, Hchars, Hlow. cbv beta iota. cbn [andb].
  unfold X at 1. rewrite upto_2_authority. cbn [String.eqb Ascii.eqb Bool.eqb].
  unfold X. rewrite (splitnetloc_authority host p Hhost Hp).
  rewrite (contains_absent "[" host), (contains_absent "]" host)
    by (apply host_without; auto).
  cbn [andb orb negb mbind exn_bind].
  rewrite (split_once_absent "#" p), (split_once_absent "?" p)
    by (apply path_without; auto).
  rewrite (checknetloc_ascii host (host_ascii host Hhost)).
  reflexivity.
Qed.

(** Parsing a simple relative name, with a default scheme. *)
Lemma urlsplit_name name d :
  all_chars name_char name = true → all_chars visible d = true →
  urlsplit name d = inr (d, "", name, "", "").
Proof.
  intros Hname Hd.
  pose proof (name_segment name Hname) as Hseg.
  pose proof (segment_path name Hseg) as Hpath.
  pose proof (path_visible name Hpath) as Hvis.
  assert (El : lstrip_c0 name = name).
  { destruct name as [|a name]; [done|]. apply lstrip_c0_visible.
    simpl in Hvis. by apply andb_true_iff in Hvis as [? _]. }
  unfold urlsplit.
  rewrite El, (remove_unsafe_visible name Hvis), (strip_c0_visible d Hd),
    (remove_unsafe_visible d Hd).
  rewrite (find_from_absent ":" name (name_without_colon name Hname)).
  cbv beta iota.
  rewrite (upto_2_plain name (segment_without_slash name Hseg)).
  cbn [mbind exn_bind].
  rewrite (split_once_absent "#" name), (split_once_absent "?" name)
    by (apply path_without; auto).
  reflexivity.
Qed.

End Parsing.

(** ** Paths *)

Section Paths.
Implicit Types (s t d name last : string) (dirs l : list string).

Lemma split_plain s :
  all_chars (λ a, negb (Ascii.eqb a "/")) s = true → split "/" s = [s].
Proof.
  induction s as [|a s IH]; simpl; [done|].
  rewrite andb_true_iff, negb_true_iff. intros [-> Hs]. by rewrite (IH Hs).
Qed.

Lemma split_first s t :
  all_chars (λ a, negb (Ascii.eqb a "/")) s = true →
  split "/" (s +:+ String "/" t) = s :: split "/" t.
Proof.
  induction s as [|a s IH].
  - intros _. reflexivity.
  - rewrite append_cons. simpl.
    rewrite andb_true_iff, negb_true_iff. intros [-> Hs]. by rewrite (IH Hs).
Qed.

Lemma plain_segment_inv s :
  plain_segment s = true →
  all_chars segment_char s = true ∧ nonempty s = true
  ∧ String.eqb s "." = false ∧ String.eqb s ".." = false.
Proof.
  unfold plain_segment. rewrite !andb_true_iff, !negb_true_iff. tauto.
Qed.

Lemma simple_name_inv s :
  simple_name s = true →
  all_chars name_char s = true ∧ nonempty s = true
  ∧ String.eqb s "." = false ∧ String.eqb s ".." = false.
Proof.
  unfold simple_name. rewrite !andb_true_iff, !negb_true_iff. tauto.
Qed.

Lemma split_under dirs last :
  forallb plain_segment dirs = true →
  all_chars segment_char last = true →
  split "/" (under dirs last) = (dirs ++ [last])%list.
Proof.
  intros Hdirs Hlast. induction dirs as [|d dirs IH]; simpl.
  - apply split_plain. by apply segment_without_slash.
  - simpl in Hdirs. apply andb_true_iff in Hdirs as [Hd Hdirs].
    apply plain_segment_inv in Hd as (Hd & _).
    change ("/" +:+ under dirs last) with (String "/" (under dirs last)).
    rewrite split_first by (by apply segment_without_slash).
    by rewrite (IH Hdirs).
Qed.

Lemma join_under dirs name :
  join "/" (dirs ++ [name])%list = under dirs name.
Proof.
  unfold join. induction dirs as [|d dirs IH]; [done|].
  cbn [app under]. rewrite <-IH.
  destruct (dirs ++ [name])%list eqn:Hl; [by destruct dirs|]. reflexivity.
Qed.

Lemma filter_plain dirs :
  forallb plain_segment dirs = true → List.filter nonempty dirs = dirs.
Proof.
  induction dirs as [|d dirs IH]; simpl; [done|].
  rewrite andb_true_iff. intros [Hd Hdirs].
  apply plain_segment_inv in Hd as (_ & -> & _). by rewrite (IH Hdirs).
Qed.

Lemma resolve_plain l acc :
  forallb (λ s, negb (String.eqb s ".") && negb (String.eqb s "..")) l = true →
  resolve l acc = (acc ++ l)%list.
Proof.
  revert acc. induction l as [|s l IH]; intros acc; simpl.
  - intros _. by rewrite app_nil_r.
  - rewrite !andb_true_iff, !negb_true_iff. intros [[Hdot Hdots] Hl].
    rewrite Hdot, Hdots, (IH _ Hl). by rewrite <-app_assoc.
Qed.

Lemma plain_segments_no_dots dirs :
  forallb plain_segment dirs = true →
  forallb (λ s, negb (String.eqb s ".") && negb (String.eqb s "..")) dirs = true.
Proof.
  induction dirs as [|d dirs IH]; simpl; [done|].
  rewrite andb_true_iff. intros [Hd Hdirs].
  apply plain_segment_inv in Hd as (_ & _ & -> & ->). by rewrite (IH Hdirs).
Qed.

(** The segments [urljoin] resolves, for a base path [/d1/../dn/last] and a
    simple name. *)
Lemma merged_segments dirs last name :
  forallb plain_segment dirs = true →
  filter_inner
    ((if nonempty (List.last ("" :: dirs ++ [last]) "")
      then removelast ("" :: dirs ++ [last]) else "" :: dirs ++ [last])
     ++ [name])%list
  = ("" :: dirs ++ [name])%list.
Proof.
  intros Hdirs.
  change ("" :: dirs ++ [last])%list with (("" :: dirs) ++ [last])%list.
  rewrite last_last, removelast_last.
  destruct (nonempty last) eqn:Hlast.
  - cbn [app filter_inner].
    destruct (dirs ++ [name])%list as [|x xs] eqn:Hl; [by destruct dirs|].
    rewrite <-Hl. rewrite removelast_last, last_last.
    by rewrite (filter_plain dirs Hdirs).
  - apply negb_false_iff, String.eqb_eq in Hlast. subst last.
    rewrite <-app_assoc. cbn [app filter_inner].
    destruct (dirs ++ ["" ; name])%list as [|x xs] eqn:Hl; [by destruct dirs|].
    rewrite <-Hl.
    change (dirs ++ [""; name])%list with (dirs ++ [""] ++ [name])%list.
    rewrite app_assoc, removelast_last, last_last.
    rewrite List.filter_app, (filter_plain dirs Hdirs). cbn [List.filter nonempty].
    by rewrite app_nil_r.
Qed.

End Paths.

(** ** Joining *)

Section Joining.
Context `{Environment}.
Implicit Types (sch host p bp name last base : string) (dirs : list string).

Lemma urlparse_authority sch host p d :
  scheme_token sch = true → all_chars host_char host = true →
  rooted_path p = true →
  urlparse (sch +:+ "://" +:+ host +:+ p) d
  = inr {| scheme := sch; netloc := host; path := p;
           params := ""; query := ""; fragment := "" |}.
Proof.
  intros Hsch Hhost Hp. unfold urlparse.
  rewrite (urlsplit_authority sch host p d Hsch Hhost Hp). cbn [mbind exn_bind].
  destruct (rooted_path_inv p Hp) as [Hchars _].
  rewrite (contains_absent ";" p) by (apply path_without; auto).
  by rewrite andb_false_r.
Qed.

Lemma urlparse_name name d :
  all_chars name_char name = true → all_chars visible d = true →
  urlparse name d
  = inr {| scheme := d; netloc := ""; path := name;
           params := ""; query := ""; fragment := "" |}.
Proof.
  intros Hname Hd. unfold urlparse.
  rewrite (urlsplit_name name d Hname Hd). cbn [mbind exn_bind].
  rewrite (contains_absent ";" name)
    by (apply path_without; auto; by apply segment_path, name_segment).
  by rewrite andb_false_r.
Qed.

Lemma under_path_chars dirs last :
  forallb plain_segment dirs = true → all_chars segment_char last = true →
  all_chars path_char (under dirs last) = true.
Proof.
  intros Hdirs Hlast. induction dirs as [|d dirs IH]; simpl.
  - by apply segment_path.
  - simpl in Hdirs. apply andb_true_iff in Hdirs as [Hd Hdirs].
    apply plain_segment_inv in Hd as (Hd & _).
    rewrite all_chars_app, (segment_path d Hd).
    change ("/" +:+ under dirs last) with (String "/" (under dirs last)).
    cbn [all_chars andb]. rewrite (IH Hdirs). reflexivity.
Qed.

Lemma segment_head s :
  all_chars segment_char s = true → nonempty s = true →
  ∃ a t, s = String a t ∧ Ascii.eqb a "/" = false.
Proof.
  destruct s as [|a t]; [discriminate|]. intros Hs _. exists a, t.
  split; [done|]. apply segment_without_slash in Hs. simpl in Hs.
  apply andb_true_iff in Hs as [Ha _]. by apply negb_true_iff in Ha.
Qed.

Lemma under_head dirs name :
  forallb plain_segment dirs = true → simple_name name = true →
  ∃ a t, under dirs name = String a t ∧ Ascii.eqb a "/" = false.
Proof.
  intros Hdirs Hname. destruct dirs as [|d dirs]; simpl.
  - apply simple_name_inv in Hname as (Hn & Hne & _).
    apply segment_head; [by apply name_segment | done].
  - simpl in Hdirs. apply andb_true_iff in Hdirs as [Hd _].
    apply plain_segment_inv in Hd as (Hd & Hne & _).
    destruct (segment_head d Hd Hne) as (a & t & -> & Ha).
    exists a, (t +:+ "/" +:+ under dirs name). by rewrite append_cons.
Qed.

(** A simple name joined to [scheme://authority/d1/../dn/last] replaces
    [last]. *)
Lemma urljoin_relative sch host bp dirs last name :
  mem sch uses_relative = true → nonempty sch = true →
  all_chars host_char host = true →
  forallb plain_segment dirs = true →
  all_chars segment_char last = true →
  simple_name name = true →
  (bp = "" ∧ dirs = [] ∨ bp = "/" +:+ under dirs last) →
  urljoin (sch +:+ "://" +:+ host +:+ bp) name
  = inr (sch +:+ "://" +:+ host +:+ "/" +:+ under dirs name).
Proof.
  intros Hrel Hne Hhost Hdirs Hlast Hname Hbp.
  destruct (relative_scheme_token sch Hrel Hne) as [Htok Hnet].
  destruct (scheme_token_inv sch Htok) as (c0 & rest & Hsch & _ & _ & _ & Hvis & _).
  pose proof (simple_name_inv name Hname) as (Hnchars & Hnne & Hndot & Hndots).
  assert (Hroot : rooted_path bp = true).
  { destruct Hbp as [[-> _]| ->]; [done|]. unfold rooted_path.
    change ("/" +:+ under dirs last) with (String "/" (under dirs last)).
    cbn [all_chars]. by rewrite (under_path_chars dirs last Hdirs Hlast). }
  unfold urljoin.
  replace (nonempty (sch +:+ "://" +:+ host +:+ bp)) with true by (by rewrite Hsch).
  rewrite Hnne. cbn [negb].
  rewrite (urlparse_authority sch host bp "" Htok Hhost Hroot). cbn [mbind exn_bind].
  cbn [scheme netloc path params query fragment].
  rewrite (urlparse_name name sch Hnchars Hvis). cbn [mbind exn_bind].
  cbn [scheme netloc path params query fragment].
  rewrite String.eqb_refl, Hrel, Hnet, Hnne. cbn [negb orb andb nonempty String.eqb].
  assert (Hslash : String.eqb (upto 1 name) "/" = false).
  { destruct (segment_head name (name_segment name Hnchars) Hnne) as (a & t & -> & Ha).
    replace (upto 1 (String a t)) with (String a "") by (by destruct t).
    simpl. by rewrite Ha. }
  rewrite Hslash.
  rewrite (split_plain name)
    by (by apply segment_without_slash, name_segment).
  assert (Hsegs :
    filter_inner
      ((if nonempty (List.last (split "/" bp) "")
        then removelast (split "/" bp) else split "/" bp) ++ [name])%list
    = ("" :: dirs ++ [name])%list).
  { destruct Hbp as [[-> ->]| ->]; [reflexivity|].
    change ("/" +:+ under dirs last) with (String "/" (under dirs last)).
    cbn [split Ascii.eqb Bool.eqb]. rewrite (split_under dirs last Hdirs Hlast).
    apply (merged_segments dirs last name Hdirs). }
  rewrite Hsegs.
  rewrite resolve_plain.
  2:{ cbn [forallb String.eqb negb andb]. rewrite forallb_app.
      rewrite (plain_segments_no_dots dirs Hdirs). cbn [forallb andb].
      by rewrite Hndot, Hndots. }
  replace (List.last ("" :: dirs ++ [name]) "") with name
    by (change ("" :: dirs ++ [name])%list with (("" :: dirs) ++ [name])%list;
        by rewrite last_last).
  replace (mem name ["."; ".."]) with false
    by (unfold mem; cbn [existsb]; by rewrite Hndot, Hndots).
  rewrite app_nil_l.
  assert (Hjoin : join "/" ("" :: dirs ++ [name]) = "/" +:+ under dirs name).
  { rewrite <-join_under. unfold join. cbn [String.concat].
    by destruct (dirs ++ [name])%list eqn:Hl; [destruct dirs|]. }
  rewrite Hjoin.
  replace (nonempty ("/" +:+ under dirs name)) with true by reflexivity.
  destruct (under_head dirs name Hdirs Hname) as (a & t & Hhead & Ha).
  unfold urlunparse, urlunsplit.
  cbn [scheme netloc path params query fragment nonempty String.eqb negb].
  rewrite Hne, Hnet.
  replace (String.eqb (upto 2 ("/" +:+ under dirs name)) "//") with false.
  2:{ rewrite Hhead. change ("/" +:+ String a t) with (String "/" (String a t)).
      replace (upto 2 (String "/" (String a t))) with (String "/" (String a ""))
        by (by destruct t).
      simpl. by rewrite Ha. }
  cbn [negb andb]. rewrite orb_true_r.
  replace (String.eqb (upto 1 ("/" +:+ under dirs name)) "/") with true
    by (rewrite Hhead; reflexivity).
  cbn [negb andb]. rewrite andb_false_r. reflexivity.
Qed.

(** An absolute reference with an authority is the result of the join,
    whatever the base; unless the base itself does not parse. *)
Lemma urljoin_absolute sch host p base :
  scheme_token sch = true → all_chars host_char host = true →
  nonempty host = true → rooted_path p = true →
  urljoin base (sch +:+ "://" +:+ host +:+ p) = inr (sch +:+ "://" +:+ host +:+ p)
  ∨ ∃ e, urlparse base "" = inl e
         ∧ urljoin base (sch +:+ "://" +:+ host +:+ p) = inl e.
Proof.
  intros Htok Hhost Hhne Hroot.
  destruct (scheme_token_inv sch Htok) as (c0 & rest & Hsch & _).
  unfold urljoin.
  destruct (nonempty base); cbn [negb]; [|by left].
  replace (nonempty (sch +:+ "://" +:+ host +:+ p)) with true by (by rewrite Hsch).
  cbn [negb].
  destruct (urlparse base "") as [e|b]; cbn [mbind exn_bind]; [right; eauto|].
  left.
  rewrite (urlparse_authority sch host p (scheme b) Htok Hhost Hroot).
  cbn [mbind exn_bind scheme netloc path params query fragment].
  destruct (negb (String.eqb sch (scheme b))); cbn [orb]; [done|].
  destruct (mem sch uses_relative) eqn:Hrel; cbn [negb]; [|done].
  assert (nonempty sch = true) as Hne by (by rewrite Hsch).
  destruct (relative_scheme_token sch Hrel Hne) as [_ ->].
  rewrite Hhne. cbn [andb].
  unfold urlunparse, urlunsplit.
  cbn [scheme netloc path params query fragment nonempty String.eqb negb].
  fold (nonempty host) (nonempty sch) (nonempty p). rewrite Hhne, Hne. cbn [orb].
  destruct (rooted_path_inv p Hroot) as [_ [->|[p' ->]]]; reflexivity.
Qed.

End Joining.

End UrlJoin.

(** ** The URL of a class *)

Section UrlOfClass.
Import Url Shape.
Context {R : Type} `{Environment}.


End UrlOfClass.

(** ** Identity and display *)

Section Identity.
Context {R : Type}.
Implicit Types (self a : EntityBase.t R) (other b : EntityBase.object R).

Local Abbreviation key_of x := (EntityState.id (EntityBase.__odata__ x)).

(** The primary-key value, spelled out on the state. *)
Lemma id_declared self key prop v :
  EntityState.primary_key_property (EntityBase.__odata__ self) = Some (key, prop) →
  EntityState.data (EntityBase.__odata__ self) !! name prop = Some v →
  key_of self = v.
Proof. unfold EntityState.id. by intros -> ->. Qed.

Lemma id_undeclared self :
  EntityState.primary_key_property (EntityBase.__odata__ self) = None →
  key_of self = VNone.
Proof. unfold EntityState.id. by intros ->. Qed.

Lemma eq_falsy_key self other :
  truthy (key_of self) = false → EntityBase.__eq__ self other = false.
Proof. unfold EntityBase.__eq__. intros ->. by destruct other. Qed.

(** C1 (amended). [a == b] is true exactly when [b] is an entity instance,
    the primary-key value of [a] is truthy, both primary-key values are
    non-null, and the two values are equal.  In particular an instance whose
    primary-key value is null equals nothing, and comparison with a value
    that is no entity instance is false (and raises nothing). *)
Theorem C1_eq_iff_truthy_equal_keys a b :
  (EntityBase.__eq__ a b = true
   ↔ ∃ e, b = EntityBase.Instance e
          ∧ truthy (key_of a) = true
          ∧ key_of a ≠ VNone ∧ key_of e ≠ VNone
          ∧ py_eq (key_of a) (key_of e) = true)
  ∧ (key_of a = VNone → ∀ b', EntityBase.__eq__ a b' = false)
  ∧ (∀ v, EntityBase.__eq__ a (EntityBase.Other v) = false).
Proof.
  split_and!.
  - unfold EntityBase.__eq__. split.
    + destruct b as [e|v]; [|discriminate].
      destruct (truthy (key_of a)) eqn:Ht; [|discriminate].
      intros Heq. exists e. split_and!; try done.
      * by apply truthy_not_none.
      * intros Hnone. rewrite Hnone in Heq. apply py_eq_none_r in Heq.
        by apply truthy_not_none in Ht.
    + intros (e & -> & Ht & _ & _ & Heq). by rewrite Ht.
  - intros Hnone b'. apply eq_falsy_key. by rewrite Hnone.
  - reflexivity.
Qed.

(** C6 (amended). The debug representation is, angle brackets included,
    [<Entity(ClassName:escaped-key)>] when a primary key is declared and its
    value is truthy, the value being rendered by the key property's own
    [escape_value]; and [<Entity(ClassName)>] when the primary-key value is
    falsy (null among others) or no primary key is declared. *)
Theorem C6_repr_shape self :
  let clsname := __name__ (EntityBase.__class__ self) in
  (∀ key prop v,
     EntityState.primary_key_property (EntityBase.__odata__ self) = Some (key, prop) →
     EntityState.data (EntityBase.__odata__ self) !! name prop = Some v →
     truthy v = true →
     EntityBase.__repr__ self
     = inr ("<Entity(" +:+ clsname +:+ ":" +:+ escape_value prop v +:+ ")>"))
  ∧ (∀ key prop v,
       EntityState.primary_key_property (EntityBase.__odata__ self) = Some (key, prop) →
       EntityState.data (EntityBase.__odata__ self) !! name prop = Some v →
       truthy v = false →
       EntityBase.__repr__ self = inr ("<Entity(" +:+ clsname +:+ ")>"))
  ∧ (EntityState.primary_key_property (EntityBase.__odata__ self) = None →
     EntityBase.__repr__ self = inr ("<Entity(" +:+ clsname +:+ ")>")).
Proof.
  intros clsname. unfold EntityBase.__repr__, EntityState.__getitem__.
  fold clsname. split_and!.
  - intros key prop v -> -> Ht. cbn [mbind exn_bind]. by rewrite Ht.
  - intros key prop v -> -> Ht. cbn [mbind exn_bind]. by rewrite Ht.
  - by intros ->.
Qed.

(** C8. Equality is not reflexive for an instance without a key: when no
    primary key is declared, or the primary-key value is null, [e == e] is
    false; no identity test precedes the comparison of keys. *)
Theorem C8_eq_irreflexive_without_key self :
  (EntityState.primary_key_property (EntityBase.__odata__ self) = None →
   EntityBase.__eq__ self (EntityBase.Instance self) = false)
  ∧ (∀ key prop,
       EntityState.primary_key_property (EntityBase.__odata__ self) = Some (key, prop) →
       EntityState.data (EntityBase.__odata__ self) !! name prop = Some VNone →
       EntityBase.__eq__ self (EntityBase.Instance self) = false).
Proof.
  split.
  - intros Hnone. apply eq_falsy_key. by rewrite (id_undeclared self Hnone).
  - intros key prop Hpk Hv. apply eq_falsy_key.
    by rewrite (id_declared self key prop VNone Hpk Hv).
Qed.

(** C9. A primary-key value that is falsy without being null (the integer
    0, the empty string) counts as no key: the instance equals nothing, not
    even an instance with the same key value, and its debug representation
    has no key segment. *)
Theorem C9_falsy_key_counts_as_no_key self key prop v :
  EntityState.primary_key_property (EntityBase.__odata__ self) = Some (key, prop) →
  EntityState.data (EntityBase.__odata__ self) !! name prop = Some v →
  v ≠ VNone → truthy v = false →
  (∀ other, EntityBase.__eq__ self other = false)
  ∧ EntityBase.__repr__ self
    = inr ("<Entity(" +:+ __name__ (EntityBase.__class__ self) +:+ ")>").
Proof.
  intros Hpk Hv _ Ht. split.
  - intros other. apply eq_falsy_key.
    by rewrite (id_declared self key prop v Hpk Hv).
  - unfold EntityBase.__repr__, EntityState.__getitem__.
    rewrite Hpk, Hv. cbn [mbind exn_bind]. by rewrite Ht.
Qed.

End Identity.

(** ** The statements at work on the sample model *)

Section Samples.
Import Example Edge.

Lemma C1_eq_witness :
  EntityBase.__eq__ (product (VInt 7)) (EntityBase.Instance (product (VInt 7))) = true
  ∧ EntityBase.__eq__ blank_product (EntityBase.Instance (product (VInt 7))) = false
  ∧ EntityBase.__eq__ (product (VInt 7)) (EntityBase.Other (VInt 7)) = false.
Proof.
  pose proof (C1_eq_iff_truthy_equal_keys (product (VInt 7))
                (EntityBase.Instance (product (VInt 7)))) as (Hiff & _ & Hother).
  pose proof (C1_eq_iff_truthy_equal_keys blank_product
                (EntityBase.Instance (product (VInt 7)))) as (_ & Hnone & _).
  split_and!.
  - apply Hiff. exists (product (VInt 7)).
    split_and!; [reflexivity | reflexivity | vm_compute; discriminate
                | vm_compute; discriminate | reflexivity].
  - apply Hnone. reflexivity.
  - apply Hother.
Defined.

(** C1 as stated fails on a key that is non-null but falsy: two instances
    hydrated from [{"Id": 0, ...}] have non-null, equal keys, and [==] is
    false. *)
Lemma C1_counterexample_zero_key :
  let a := product (VInt 0) in
  let b := EntityBase.Instance (product (VInt 0)) in
  ¬ (EntityBase.__eq__ a b = true
     ↔ ∃ e, b = EntityBase.Instance e
            ∧ EntityState.id (EntityBase.__odata__ a) ≠ VNone
            ∧ EntityState.id (EntityBase.__odata__ e) ≠ VNone
            ∧ py_eq (EntityState.id (EntityBase.__odata__ a))
                    (EntityState.id (EntityBase.__odata__ e)) = true).
Proof.
  intros a b [_ Hback].
  assert (EntityBase.__eq__ a b = true) as Heq.
  { apply Hback. exists (product (VInt 0)).
    split_and!; [reflexivity | vm_compute; discriminate
                | vm_compute; discriminate | reflexivity]. }
  vm_compute in Heq. discriminate Heq.
Qed.

Lemma C2_hydration_witness :
  ("id", IntegerProperty "Id" true) ∈ class_properties Product
  ∧ EntityState.data (EntityBase.__odata__ (product (VInt 7))) !! "Id" = Some (VInt 7)
  ∧ EntityState.data (EntityBase.__odata__ (product (VInt 7))) !! "Category" = None.
Proof.
  assert (("id", IntegerProperty "Id" true) ∈ class_properties Product) as Hin.
  { vm_compute. apply list_elem_of_here. }
  destruct (C2_hydration_reads_stripped_mapping Product (raw_product (VInt 7))
              "id" (IntegerProperty "Id" true) Hin)
    as (raw' & _ & _ & _ & Hplain & _ & _).
  split_and!; [exact Hin | | reflexivity].
  unfold product. etrans; [apply Hplain|reflexivity].
  vm_compute. intros Hbad.
  repeat (apply elem_of_cons in Hbad as [Hbad|Hbad]; [discriminate Hbad|]).
  by apply elem_of_nil in Hbad.
Defined.

Lemma C3_expansion_witness :
  EntityState.nav_cache (EntityBase.__odata__ (product (VInt 7))) !! "Orders"
  = Some (collection [order 3; order 1; order 2])
  ∧ EntityState.nav_cache
      (EntityBase.__odata__ (EntityBase.__new__ Product (Some ∅)).1) !! "Orders"
    = None.
Proof.
  assert (("orders", NavProperty "Orders" true) ∈ class_navigation Product) as Hin.
  { vm_compute. apply list_elem_of_further, list_elem_of_here. }
  assert (NoDup (nav_names (class_navigation Product))) as Hnd.
  { apply (bool_decide_unpack _). vm_compute. exact I. }
  split.
  - destruct (C3_expanded_payloads_cached Product (raw_product (VInt 7))
                "orders" (NavProperty "Orders" true) Hin) as (Hpresent & _).
    destruct (Hpresent (VList [order 3; order 1; order 2]))
      as (first & _ & Hsame & Hcache & _); [reflexivity|].
    rewrite (Hsame Hnd) in Hcache. exact Hcache.
  - destruct (C3_expanded_payloads_cached Product ∅
                "orders" (NavProperty "Orders" true) Hin) as (_ & Habsent).
    apply Habsent. reflexivity.
Defined.

(** C3 as stated fails on a class that declares two navigation properties
    under one wire name: the second, a collection, finds its payload popped
    by the first, and the cache entry is tagged [single]. *)
Lemma C3_counterexample_repeated_wire_name :
  let prop := NavProperty "Orders" true in
  let payload := VList [order 3; order 1] in
  let raw : gmap string value := <["Orders" := payload]> ∅ in
  ("orders", prop) ∈ class_navigation Edge.Twice
  ∧ raw !! nav_name prop = Some payload
  ∧ is_collection prop = true
  ∧ EntityState.nav_cache
      (EntityBase.__odata__ (EntityBase.__new__ Edge.Twice (Some raw)).1)
      !! nav_name prop
    ≠ Some (collection (instances_from_data prop payload)).
Proof.
  intros prop payload raw. split_and!.
  - vm_compute. apply list_elem_of_further, list_elem_of_here.
  - reflexivity.
  - reflexivity.
  - vm_compute. discriminate.
Qed.

Lemma C5_blank_witness :
  EntityState.__getitem__ (EntityBase.__odata__ blank_product) "Id" = inr VNone
  ∧ EntityState.nav_cache (EntityBase.__odata__ blank_product) = ∅
  ∧ EntityState.dirty (EntityBase.__odata__ blank_product) = ∅.
Proof.
  destruct (C5_blank_instance Product) as (Hread & Hnav & Hdirty).
  split_and!; [|exact Hnav|exact Hdirty].
  apply (Hread "id" (IntegerProperty "Id" true)).
  vm_compute. apply list_elem_of_here.
Defined.

Lemma C6_repr_witness :
  EntityBase.__repr__ (product (VInt 7)) = inr "<Entity(Product:7)>"
  ∧ EntityBase.__repr__ (product (VInt 0)) = inr "<Entity(Product)>"
  ∧ EntityBase.__repr__ blank_product = inr "<Entity(Product)>"
  ∧ EntityBase.__repr__ (EntityBase.__new__ Note None).1 = inr "<Entity(Note)>".
Proof.
  split_and!.
  - destruct (C6_repr_shape (product (VInt 7))) as (Hkey & _ & _).
    apply (Hkey "id" (IntegerProperty "Id" true) (VInt 7)); reflexivity.
  - destruct (C6_repr_shape (product (VInt 0))) as (_ & Hfalsy & _).
    apply (Hfalsy "id" (IntegerProperty "Id" true) (VInt 0)); reflexivity.
  - destruct (C6_repr_shape blank_product) as (_ & Hfalsy & _).
    apply (Hfalsy "id" (IntegerProperty "Id" true) VNone); reflexivity.
  - destruct (C6_repr_shape (EntityBase.__new__ Note None).1) as (_ & _ & Hnokey).
    apply Hnokey. reflexivity.
Defined.

(** C6 as stated fails on a hydrated product with key 7: the text carries
    the angle brackets of the format string. *)
Lemma C6_counterexample_angle_brackets :
  EntityBase.__repr__ (product (VInt 7)) ≠ inr "Entity(Product:7)"
  ∧ EntityBase.__repr__ blank_product ≠ inr "Entity(Product)".
Proof. split; vm_compute; discriminate. Qed.



Lemma C8_irreflexive_witness :
  EntityBase.__eq__ (EntityBase.__new__ Note None).1
    (EntityBase.Instance (EntityBase.__new__ Note None).1) = false
  ∧ EntityBase.__eq__ blank_product (EntityBase.Instance blank_product) = false.
Proof.
  split.
  - destruct (C8_eq_irreflexive_without_key (EntityBase.__new__ Note None).1)
      as (Hnokey & _).
    apply Hnokey. reflexivity.
  - destruct (C8_eq_irreflexive_without_key blank_product) as (_ & Hnull).
    apply (Hnull "id" (IntegerProperty "Id" true)); reflexivity.
Defined.

Lemma C9_falsy_key_witness :
  EntityBase.__eq__ (product (VInt 0)) (EntityBase.Instance (product (VInt 0))) = false
  ∧ EntityBase.__repr__ (product (VInt 0)) = inr "<Entity(Product)>"
  ∧ EntityBase.__eq__ (product (VStr "")) (EntityBase.Instance (product (VStr ""))) = false.
Proof.
  destruct (C9_falsy_key_counts_as_no_key (product (VInt 0))
              "id" (IntegerProperty "Id" true) (VInt 0)) as (Heq & Hrepr);
    [reflexivity | reflexivity | discriminate | reflexivity |].
  destruct (C9_falsy_key_counts_as_no_key (product (VStr ""))
              "id" (IntegerProperty "Id" true) (VStr "")) as (Heq' & _);
    [reflexivity | reflexivity | discriminate | reflexivity |].
  split_and!; [apply Heq | exact Hrepr | apply Heq'].
Defined.

Lemma C10_stripping_witness :
  ∃ raw',
    (EntityBase.__new__ Product (Some (raw_product (VInt 7)))).2 = Some raw'
    ∧ raw' !! "Orders" = None ∧ raw' !! "Category" = None
    ∧ raw' !! "Id" = Some (VInt 7) ∧ raw' !! "ProductName" = Some (VStr "Kettle").
Proof.
  destruct (C10_new_strips_callers_mapping Product (raw_product (VInt 7)))
    as (raw' & Hraw' & Hgone & Hkept).
  exists raw'. split_and!; [exact Hraw' | | | |].
  - apply (Hgone "orders" (NavProperty "Orders" true)).
    vm_compute. apply list_elem_of_further, list_elem_of_here.
  - apply (Hgone "category" (NavProperty "Category" false)).
    vm_compute. apply list_elem_of_here.
  - rewrite Hkept; [reflexivity|].
    vm_compute. intros Hbad.
    repeat (apply elem_of_cons in Hbad as [Hbad|Hbad]; [discriminate Hbad|]).
    by apply elem_of_nil in Hbad.
  - rewrite Hkept; [reflexivity|].
    vm_compute. intros Hbad.
    repeat (apply elem_of_cons in Hbad as [Hbad|Hbad]; [discriminate Hbad|]).
    by apply elem_of_nil in Hbad.
Defined.

End Samples.

(** * Further properties of construction *)

Section Construction_more.
Context {R : Type}.
Implicit Types (cls : EntityClass R) (raw : gmap string value).
Implicit Types (from_data : option (gmap string value)).

Lemma state_ext (es1 es2 : EntityState.t R) :
  EntityState.entity es1 = EntityState.entity es2 →
  EntityState.data es1 = EntityState.data es2 →
  EntityState.dirty es1 = EntityState.dirty es2 →
  EntityState.nav_cache es1 = EntityState.nav_cache es2 →
  es1 = es2.
Proof. destruct es1, es2; simpl; by intros -> -> -> ->. Qed.

Lemma instance_ext (i1 i2 : EntityBase.t R) :
  EntityBase.__odata__ i1 = EntityBase.__odata__ i2 → i1 = i2.
Proof. destruct i1, i2; simpl; by intros ->. Qed.

(** The caller's mapping as [__new__] leaves it, as a term. *)
Lemma leftover_eq cls raw :
  (EntityBase.__new__ cls (Some raw)).2
  = Some (EntityBase.expand_loop (class_navigation cls) raw
            (EntityState.__init__ cls)).1.
Proof. by rewrite new_from_data. Qed.

Lemma state_of_entity cls from_data :
  EntityState.entity (state_of cls from_data) = cls.
Proof.
  unfold state_of. destruct from_data as [raw|].
  - rewrite new_from_data. cbn [fst EntityBase.__odata__].
    pose proof (hydrate_loop_frame (class_properties cls)
      (EntityBase.expand_loop (class_navigation cls) raw (EntityState.__init__ cls)).1
      (EntityBase.expand_loop (class_navigation cls) raw (EntityState.__init__ cls)).2)
      as (He & _ & _).
    pose proof (expand_loop_frame (class_navigation cls) raw
                  (EntityState.__init__ cls)) as (He' & _ & _).
    by rewrite He, He'.
  - unfold EntityBase.__new__. cbn [fst EntityBase.__odata__].
    by destruct (blank_loop_frame (EntityState.properties (EntityState.__init__ cls))
                   (EntityState.__init__ cls)) as (-> & _ & _).
Qed.

Lemma state_of_dirty cls from_data :
  EntityState.dirty (state_of cls from_data) = ∅.
Proof.
  unfold state_of. destruct from_data as [raw|].
  - rewrite new_from_data. cbn [fst EntityBase.__odata__].
    pose proof (hydrate_loop_frame (class_properties cls)
      (EntityBase.expand_loop (class_navigation cls) raw (EntityState.__init__ cls)).1
      (EntityBase.expand_loop (class_navigation cls) raw (EntityState.__init__ cls)).2)
      as (_ & Hd & _).
    pose proof (expand_loop_frame (class_navigation cls) raw
                  (EntityState.__init__ cls)) as (_ & _ & Hd').
    by rewrite Hd, Hd'.
  - unfold EntityBase.__new__. cbn [fst EntityBase.__odata__].
    by destruct (blank_loop_frame (EntityState.properties (EntityState.__init__ cls))
                   (EntityState.__init__ cls)) as (_ & -> & _).
Qed.

(** The values after construction, read off the original raw mapping. *)
Lemma state_of_data cls from_data k :
  EntityState.data (state_of cls from_data) !! k
  = if decide (k ∈ names (class_properties cls)) then
      Some match from_data with
           | Some raw =>
               if decide (k ∈ nav_names (class_navigation cls)) then VNone
               else default VNone (raw !! k)
           | None => VNone
           end
    else None.
Proof.
  unfold state_of. destruct from_data as [raw|].
  - rewrite (new_data cls raw _ k (leftover_eq cls raw)).
    destruct (decide (k ∈ names _)); [|done].
    rewrite expand_loop_raw. by destruct (decide (k ∈ nav_names _)).
  - unfold EntityBase.__new__. cbn [fst EntityBase.__odata__].
    fold (class_properties cls). rewrite blank_loop_data.
    by destruct (decide _).
Qed.

(** The navigation cache after construction. *)
Lemma state_of_nav_cache cls from_data n :
  EntityState.nav_cache (state_of cls from_data) !! n
  = match from_data with
    | Some raw =>
        match raw !! n, find_nav n (class_navigation cls) with
        | Some payload, Some prop => Some (stored_entry prop payload)
        | _, _ => None
        end
    | None => None
    end.
Proof.
  unfold state_of. destruct from_data as [raw|].
  - apply new_nav_cache.
  - unfold EntityBase.__new__. cbn [fst EntityBase.__odata__].
    destruct (blank_loop_frame (EntityState.properties (EntityState.__init__ cls))
                (EntityState.__init__ cls)) as (_ & _ & ->).
    apply lookup_empty.
Qed.

(** Two constructions of one class give the same instance as soon as they
    agree on every value and every cache entry. *)
Lemma new_ext cls d1 d2 :
  (∀ k, EntityState.data (state_of cls d1) !! k
        = EntityState.data (state_of cls d2) !! k) →
  (∀ n, EntityState.nav_cache (state_of cls d1) !! n
        = EntityState.nav_cache (state_of cls d2) !! n) →
  (EntityBase.__new__ cls d1).1 = (EntityBase.__new__ cls d2).1.
Proof.
  intros Hdata Hnav. apply instance_ext. fold (state_of cls d1) (state_of cls d2).
  apply state_ext.
  - by rewrite !state_of_entity.
  - by apply map_eq.
  - by rewrite !state_of_dirty.
  - by apply map_eq.
Qed.

(** X1. After construction, with or without raw data, the keys of the
    state's values are exactly the wire names of the declared value
    properties: every declared field has an entry, and a raw field the class
    does not declare gets none. *)
Theorem X1_values_keys_are_declared_names cls from_data :
  dom (EntityState.data (state_of cls from_data))
  = list_to_set (names (class_properties cls)).
Proof.
  apply set_eq. intros k.
  rewrite elem_of_dom, elem_of_list_to_set, state_of_data.
  destruct (decide (k ∈ names (class_properties cls))) as [Hin|Hout].
  - split; [done | intros _; eauto].
  - split; [intros [v Hv]; discriminate | done].
Qed.

(** X2. After construction from raw data, the keys of the navigation cache
    are exactly the navigation wire names that are keys of the raw mapping:
    nothing is cached for an absent payload and nothing for a raw field that
    is no navigation property. *)
Theorem X2_nav_cache_keys_are_embedded_names cls raw :
  dom (EntityState.nav_cache (state_of cls (Some raw)))
  = dom raw ∩ list_to_set (nav_names (class_navigation cls)).
Proof.
  apply set_eq. intros n.
  rewrite elem_of_intersection, !elem_of_dom, elem_of_list_to_set, state_of_nav_cache.
  destruct (raw !! n) as [payload|] eqn:Hraw.
  - destruct (find_nav n (class_navigation cls)) as [prop|] eqn:Hfind.
    + split; [intros _; split; [eauto|] | eauto].
      destruct (decide (n ∈ nav_names (class_navigation cls))) as [|Hout]; [done|].
      apply find_nav_None in Hout. congruence.
    + apply find_nav_None in Hfind.
      split; [intros [v Hv]; discriminate | intros [_ Hin]; done].
  - split; [intros [v Hv]; discriminate | intros [[v Hv] _]; discriminate].
Qed.

(** X3. A raw field the class does not declare is ignored: setting a key
    that is neither a value wire name nor a navigation wire name to any
    value changes nothing in the constructed instance. *)
Theorem X3_undeclared_field_ignored cls raw k v :
  k ∉ names (class_properties cls) →
  k ∉ nav_names (class_navigation cls) →
  (EntityBase.__new__ cls (Some (<[k := v]> raw))).1
  = (EntityBase.__new__ cls (Some raw)).1.
Proof.
  intros Hval Hnav. apply new_ext.
  - intros j. rewrite !state_of_data.
    destruct (decide (j ∈ names (class_properties cls))) as [Hin|]; [|done].
    rewrite lookup_insert_ne; [done | congruence].
  - intros n. rewrite !state_of_nav_cache.
    destruct (decide (k = n)) as [<-|Hne].
    + apply find_nav_None in Hnav. rewrite Hnav, lookup_insert_eq.
      by destruct (raw !! k).
    + by rewrite lookup_insert_ne.
Qed.

(** X4. Raw data that holds none of the declared wire names hydrates to the
    instance that construction without raw data gives; in particular
    [from_data={}] and no [from_data] give the same instance. *)
Theorem X4_undeclared_raw_is_blank cls raw :
  (∀ k, k ∈ names (class_properties cls) → raw !! k = None) →
  (∀ n, n ∈ nav_names (class_navigation cls) → raw !! n = None) →
  (EntityBase.__new__ cls (Some raw)).1 = (EntityBase.__new__ cls None).1.
Proof.
  intros Hval Hnav. apply new_ext.
  - intros k. rewrite !state_of_data.
    destruct (decide (k ∈ names (class_properties cls))) as [Hin|]; [|done].
    rewrite (Hval k Hin). by destruct (decide _).
  - intros n. rewrite !state_of_nav_cache.
    destruct (raw !! n) as [payload|] eqn:Hraw; [|done].
    destruct (find_nav n (class_navigation cls)) as [prop|] eqn:Hfind; [|done].
    destruct (decide (n ∈ nav_names (class_navigation cls))) as [Hin|Hout].
    + rewrite (Hnav n Hin) in Hraw. discriminate.
    + apply find_nav_None in Hout. congruence.
Qed.

(** X5. When the raw mapping holds no navigation wire name, construction
    leaves the caller's mapping exactly as it was and caches nothing. *)
Theorem X5_no_payload_no_mutation cls raw :
  (∀ n, n ∈ nav_names (class_navigation cls) → raw !! n = None) →
  (EntityBase.__new__ cls (Some raw)).2 = Some raw
  ∧ EntityState.nav_cache (state_of cls (Some raw)) = ∅.
Proof.
  intros Hnav. split.
  - rewrite leftover_eq. f_equal. apply map_eq. intros k.
    rewrite expand_loop_raw. destruct (decide _) as [Hin|]; [|done].
    by rewrite (Hnav k Hin).
  - apply map_eq. intros n. rewrite state_of_nav_cache, lookup_empty.
    destruct (raw !! n) as [payload|] eqn:Hraw; [|done].
    destruct (find_nav n (class_navigation cls)) as [prop|] eqn:Hfind; [|done].
    destruct (decide (n ∈ nav_names (class_navigation cls))) as [Hin|Hout].
    + rewrite (Hnav n Hin) in Hraw. discriminate.
    + apply find_nav_None in Hout. congruence.
Qed.

(** X6. Constructing a second instance from the mapping a first construction
    left behind gives the same values, but an empty navigation cache, and
    leaves that mapping as it is: the embedded payloads are consumed by the
    first construction. *)
Theorem X6_rehydration_loses_payloads cls raw raw' :
  (EntityBase.__new__ cls (Some raw)).2 = Some raw' →
  EntityState.data (state_of cls (Some raw'))
  = EntityState.data (state_of cls (Some raw))
  ∧ EntityState.nav_cache (state_of cls (Some raw')) = ∅
  ∧ (EntityBase.__new__ cls (Some raw')).2 = Some raw'.
Proof.
  rewrite leftover_eq. intros [= <-].
  set (raw' := (EntityBase.expand_loop (class_navigation cls) raw
                  (EntityState.__init__ cls)).1).
  assert (Hraw' : ∀ k, raw' !! k
            = if decide (k ∈ nav_names (class_navigation cls)) then None
              else raw !! k) by (intros k; apply expand_loop_raw).
  split_and!.
  - apply map_eq. intros k. rewrite !state_of_data.
    destruct (decide (k ∈ names _)); [|done].
    rewrite Hraw'. by destruct (decide (k ∈ nav_names _)).
  - apply map_eq. intros n. rewrite state_of_nav_cache, lookup_empty, Hraw'.
    destruct (decide (n ∈ nav_names (class_navigation cls))) as [Hin|Hout]; [done|].
    apply find_nav_None in Hout. rewrite Hout. by destruct (raw !! n).
  - rewrite leftover_eq. f_equal. apply map_eq. intros k.
    rewrite expand_loop_raw, Hraw'. by destruct (decide _).
Qed.

(** X7. A value property whose wire name is also the wire name of a declared
    navigation property is hydrated to null, whatever the raw mapping holds
    under that name: the payload is popped before the value is read. *)
Theorem X7_clashing_value_property_is_null cls raw key prop :
  (key, prop) ∈ class_properties cls →
  name prop ∈ nav_names (class_navigation cls) →
  EntityState.__getitem__ (state_of cls (Some raw)) (name prop) = inr VNone.
Proof.
  intros Hin Hclash. unfold EntityState.__getitem__. rewrite state_of_data.
  rewrite decide_True by (by eapply elem_of_names).
  by rewrite decide_True.
Qed.

(** X8. When several navigation properties are declared under one wire
    name, the first declared decides: for any of them, an embedded payload
    is converted and tagged by the first property declared under the name. *)
Theorem X8_first_navigation_property_wins cls raw key prop payload :
  (key, prop) ∈ class_navigation cls →
  raw !! nav_name prop = Some payload →
  ∃ first,
    find_nav (nav_name prop) (class_navigation cls) = Some first
    ∧ nav_name first = nav_name prop
    ∧ EntityState.nav_cache (state_of cls (Some raw)) !! nav_name prop
      = Some (if is_collection first
              then collection (instances_from_data first payload)
              else single (instances_from_data first payload)).
Proof.
  intros Hin Hraw.
  destruct (find_nav (nav_name prop) (class_navigation cls)) as [first|] eqn:Hfind.
  - exists first. split_and!; [done | by eapply find_nav_name |].
    rewrite state_of_nav_cache, Hraw, Hfind. unfold stored_entry.
    by destruct (is_collection first).
  - apply find_nav_None in Hfind. exfalso. apply Hfind.
    by eapply elem_of_nav_names.
Qed.

End Construction_more.

(** * Further properties of identity, display and addressing *)

Section Identity_more.
Context {R : Type} `{Environment}.
Implicit Types (cls : EntityClass R) (raw : gmap string value).
Implicit Types (from_data : option (gmap string value)).
Implicit Types (a b c : EntityBase.t R).

Local Abbreviation key_of x := (EntityState.id (EntityBase.__odata__ x)).

(** The primary-key value a construction reads from its raw data. *)
Local Abbreviation key_read cls prop from_data :=
  (match from_data with
   | Some raw =>
       if decide (name prop ∈ nav_names (class_navigation cls)) then VNone
       else default VNone (raw !! name prop)
   | None => VNone
   end).

Lemma state_of_primary_key cls from_data :
  EntityState.primary_key_property (state_of cls from_data) = class_primary_key cls.
Proof.
  unfold EntityState.primary_key_property, class_primary_key, EntityState.properties.
  by rewrite state_of_entity.
Qed.

Lemma class_primary_key_declared cls key prop :
  class_primary_key cls = Some (key, prop) → (key, prop) ∈ class_properties cls.
Proof.
  unfold class_primary_key, EntityState.primary_key_property. intros Hfind.
  apply find_some in Hfind as [Hin _]. by apply list_elem_of_In.
Qed.

Lemma state_of_key_value cls from_data key prop :
  class_primary_key cls = Some (key, prop) →
  EntityState.data (state_of cls from_data) !! name prop
  = Some (key_read cls prop from_data).
Proof.
  intros Hpk. rewrite state_of_data. apply decide_True.
  eapply elem_of_names. by apply class_primary_key_declared.
Qed.

Lemma state_of_id cls from_data :
  EntityState.id (state_of cls from_data)
  = match class_primary_key cls with
    | Some (_, prop) => key_read cls prop from_data
    | None => VNone
    end.
Proof.
  unfold EntityState.id. rewrite state_of_primary_key.
  destruct (class_primary_key cls) as [[key prop]|] eqn:Hpk; [|done].
  by rewrite (state_of_key_value cls from_data key prop Hpk).
Qed.

Lemma py_eq_scalar_sym (v w : value) :
  scalar v = true → scalar w = true → py_eq v w = py_eq w v.
Proof.
  destruct v as [|x|x|x| |], w as [|y|y|y| |]; simpl; try done; intros _ _.
  - by destruct x, y.
  - apply Z.eqb_sym.
  - apply Z.eqb_sym.
  - apply Z.eqb_sym.
  - apply String.eqb_sym.
Qed.

Lemma py_eq_scalar_trans (u v w : value) :
  scalar u = true → scalar v = true → scalar w = true →
  py_eq u v = true → py_eq v w = true → py_eq u w = true.
Proof.
  destruct u as [|x|x|x| |], v as [|y|y|y| |], w as [|z|z|z| |];
    simpl; try done; intros _ _ _;
    rewrite ?Z.eqb_eq, ?String.eqb_eq; try congruence;
    try (destruct x); try (destruct y); try (destruct z); simpl; try done; lia.
Qed.

Lemma py_eq_scalar_truthy (v w : value) :
  scalar v = true → scalar w = true → py_eq v w = true → truthy v = truthy w.
Proof.
  destruct v as [|x|x|x| |], w as [|y|y|y| |]; simpl; try done; intros _ _.
  - by destruct x, y.
  - rewrite Z.eqb_eq. intros <-. by destruct x.
  - rewrite Z.eqb_eq. intros ->. by destruct y.
  - rewrite Z.eqb_eq. by intros ->.
  - rewrite String.eqb_eq. by intros ->.
Qed.

(** X9. The debug representation of a freshly constructed instance never
    raises.  With raw data, a declared primary key and a truthy value read
    for it, it is [<Entity(ClassName:escaped-key)>]; in every other case
    (no raw data, no declared key, key field absent, falsy, or popped as a
    navigation payload) it is [<Entity(ClassName)>]. *)
Theorem X9_repr_of_constructed cls from_data :
  EntityBase.__repr__ (EntityBase.__new__ cls from_data).1
  = inr match class_primary_key cls with
        | Some (_, prop) =>
            if truthy (key_read cls prop from_data)
            then "<Entity(" +:+ __name__ cls +:+ ":"
                 +:+ escape_value prop (key_read cls prop from_data) +:+ ")>"
            else "<Entity(" +:+ __name__ cls +:+ ")>"
        | None => "<Entity(" +:+ __name__ cls +:+ ")>"
        end.
Proof.
  unfold EntityBase.__repr__, EntityBase.__class__, EntityState.__getitem__.
  fold (state_of cls from_data).
  rewrite state_of_primary_key, state_of_entity.
  destruct (class_primary_key cls) as [[key prop]|] eqn:Hpk; [|done].
  rewrite (state_of_key_value cls from_data key prop Hpk). cbn [mbind exn_bind].
  by destruct (truthy _).
Qed.

(** X10. Two instances of a class hydrated from raw mappings that both hold
    the primary-key field compare by that field alone: [a == b] is true
    exactly when the value read for [a] is truthy and equal to the value
    read for [b], whatever else the two mappings hold; unless the key's wire
    name is also a navigation wire name, in which case the key is popped as
    a payload and [a == b] is false. *)
Theorem X10_hydrated_instances_compare_by_key cls key prop raw1 raw2 v1 v2 :
  class_primary_key cls = Some (key, prop) →
  raw1 !! name prop = Some v1 →
  raw2 !! name prop = Some v2 →
  EntityBase.__eq__ (EntityBase.__new__ cls (Some raw1)).1
    (EntityBase.Instance (EntityBase.__new__ cls (Some raw2)).1)
  = if decide (name prop ∈ nav_names (class_navigation cls)) then false
    else truthy v1 && py_eq v1 v2.
Proof.
  intros Hpk Hv1 Hv2. unfold EntityBase.__eq__.
  fold (state_of cls (Some raw1)) (state_of cls (Some raw2)).
  rewrite !state_of_id, Hpk, Hv1, Hv2.
  destruct (decide (name prop ∈ nav_names (class_navigation cls))); [done|].
  simpl. by destruct (truthy v1).
Qed.

(** X11. An instance constructed without raw data, or from raw data that
    does not hold the primary-key field, equals nothing: neither another
    instance, nor itself, nor any other value. *)
Theorem X11_keyless_construction_equals_nothing cls from_data other :
  (∀ key prop raw,
     class_primary_key cls = Some (key, prop) → from_data = Some raw →
     raw !! name prop = None) →
  EntityBase.__eq__ (EntityBase.__new__ cls from_data).1 other = false.
Proof.
  intros Hnokey. apply eq_falsy_key. fold (state_of cls from_data).
  rewrite state_of_id.
  destruct (class_primary_key cls) as [[key prop]|] eqn:Hpk; [|done].
  destruct from_data as [raw|]; [|done].
  rewrite (Hnokey key prop raw eq_refl eq_refl). by destruct (decide _).
Qed.

(** X12. On instances whose primary-key values are scalars (null, boolean,
    integer, text), [==] is symmetric and transitive. *)
Theorem X12_eq_symmetric_transitive a b c :
  scalar (key_of a) = true → scalar (key_of b) = true → scalar (key_of c) = true →
  EntityBase.__eq__ a (EntityBase.Instance b)
  = EntityBase.__eq__ b (EntityBase.Instance a)
  ∧ (EntityBase.__eq__ a (EntityBase.Instance b) = true →
     EntityBase.__eq__ b (EntityBase.Instance c) = true →
     EntityBase.__eq__ a (EntityBase.Instance c) = true).
Proof.
  intros Ha Hb Hc. unfold EntityBase.__eq__. split.
  - rewrite (py_eq_scalar_sym (key_of b) (key_of a)) by done.
    destruct (py_eq (key_of a) (key_of b)) eqn:Heq.
    + rewrite (py_eq_scalar_truthy _ _ Ha Hb Heq). by destruct (truthy _).
    + by destruct (truthy (key_of a)), (truthy (key_of b)).
  - destruct (truthy (key_of a)); [|done].
    destruct (truthy (key_of b)); [|done].
    by apply py_eq_scalar_trans.
Qed.

(** X13. With an empty URL base, which is the default of [EntityBase], the
    URL of a class is its collection name, unchanged; with an empty
    collection name it is the URL base, unchanged.  Neither case raises. *)
Theorem X13_url_with_empty_part cls :
  (__odata_url_base__ cls = "" →
   EntityBase.__odata_url__ cls = inr (__odata_collection__ cls))
  ∧ (__odata_collection__ cls = "" →
     EntityBase.__odata_url__ cls = inr (__odata_url_base__ cls)).
Proof.
  unfold EntityBase.__odata_url__, Url.urljoin. split.
  - by intros ->.
  - intros ->. by destruct (__odata_url_base__ cls).
Qed.

(** X14. The class that [declarative_base()] returns declares nothing:
    whatever raw mapping an instance of it is constructed from, the instance
    holds no value and no cache entry, the caller's mapping is left as it
    was, the instance renders as [<Entity(Entity)>] and equals nothing; the
    URL of the class is [Entities]. *)
Theorem X14_declarative_base_is_bare raw (other : EntityBase.object R) :
  EntityBase.__new__ (R := R) declarative_base (Some raw)
  = (EntityBase.mk (EntityState.__init__ declarative_base), Some raw)
  ∧ (EntityBase.__new__ (R := R) declarative_base (Some raw)).1
    = (EntityBase.__new__ declarative_base None).1
  ∧ EntityBase.__repr__ (EntityBase.__new__ (R := R) declarative_base (Some raw)).1
    = inr "<Entity(Entity)>"
  ∧ EntityBase.__eq__ (EntityBase.__new__ declarative_base (Some raw)).1 other = false
  ∧ EntityBase.__odata_url__ (R := R) declarative_base = inr "Entities".
Proof.
  split_and!; try reflexivity. by destruct other.
Qed.

End Identity_more.

Section Identity_edge.
Context {R : Type}.
Implicit Types (self : EntityBase.t R).


End Identity_edge.

(** ** The further properties at work on the sample and edge models *)

Section Samples_more.
Import Example Edge.
Local Existing Instance sample_environment.

(** membership and non-membership in an explicit list of wire names *)
Ltac by_evaluation := apply (bool_decide_unpack _); vm_compute; exact I.

Lemma X3_undeclared_field_witness :
  (EntityBase.__new__ Product (Some (<["Stock" := VInt 12]> (raw_product (VInt 7))))).1
  = product (VInt 7).
Proof.
  apply (X3_undeclared_field_ignored Product (raw_product (VInt 7)) "Stock" (VInt 12));
    by_evaluation.
Defined.

Lemma X4_blank_witness :
  (EntityBase.__new__ Product (Some (<["Stock" := VInt 12]> ∅))).1 = blank_product
  ∧ (EntityBase.__new__ Product (Some ∅)).1 = blank_product.
Proof.
  split.
  - apply (X4_undeclared_raw_is_blank Product (<["Stock" := VInt 12]> ∅));
      intros k Hin; vm_compute in Hin;
      repeat (apply elem_of_cons in Hin as [->|Hin]; [reflexivity|]);
      by apply elem_of_nil in Hin.
  - apply (X4_undeclared_raw_is_blank Product ∅); intros k _; reflexivity.
Defined.

Lemma X5_no_mutation_witness :
  (EntityBase.__new__ Product (Some (raw_plain (VInt 7) "Kettle"))).2
  = Some (raw_plain (VInt 7) "Kettle")
  ∧ EntityState.nav_cache (state_of Product (Some (raw_plain (VInt 7) "Kettle"))) = ∅.
Proof.
  apply (X5_no_payload_no_mutation Product (raw_plain (VInt 7) "Kettle")).
  intros n Hin. vm_compute in Hin.
  repeat (apply elem_of_cons in Hin as [->|Hin]; [reflexivity|]).
  by apply elem_of_nil in Hin.
Defined.

Lemma X6_rehydration_witness :
  let raw' := <["Id" := VInt 7]> (<["ProductName" := VStr "Kettle"]> ∅) in
  (EntityBase.__new__ Product (Some (raw_product (VInt 7)))).2 = Some raw'
  ∧ EntityState.data (state_of Product (Some raw'))
    = EntityState.data (state_of Product (Some (raw_product (VInt 7))))
  ∧ EntityState.nav_cache (state_of Product (Some raw')) = ∅
  ∧ (EntityBase.__new__ Product (Some raw')).2 = Some raw'.
Proof.
  intros raw'.
  assert ((EntityBase.__new__ Product (Some (raw_product (VInt 7)))).2 = Some raw')
    as Hleft by (vm_compute; reflexivity).
  split; [exact Hleft|].
  exact (X6_rehydration_loses_payloads Product (raw_product (VInt 7)) raw' Hleft).
Defined.

Lemma X7_clash_witness :
  EntityState.__getitem__
    (state_of Clash (Some (<["Id" := VInt 1]> (<["Category" := VStr "Kitchen"]> ∅))))
    "Category"
  = inr VNone.
Proof.
  apply (X7_clashing_value_property_is_null Clash _ "label" (StringProperty "Category"));
    [vm_compute; apply list_elem_of_further, list_elem_of_here | by_evaluation].
Defined.

Lemma X8_first_wins_witness :
  EntityState.nav_cache
    (state_of Twice (Some (<["Orders" := VList [order 3; order 1]]> ∅))) !! "Orders"
  = Some (single [VList [order 3; order 1]]).
Proof.
  destruct (X8_first_navigation_property_wins Twice
              (<["Orders" := VList [order 3; order 1]]> ∅)
              "orders" (NavProperty "Orders" true) (VList [order 3; order 1]))
    as (first & Hfirst & _ & Hcache);
    [vm_compute; apply list_elem_of_further, list_elem_of_here | reflexivity |].
  vm_compute in Hfirst. injection Hfirst as <-. exact Hcache.
Defined.

Lemma X10_same_key_witness :
  EntityBase.__eq__ (product (VInt 7))
    (EntityBase.Instance (EntityBase.__new__ Product (Some (raw_plain (VInt 7) "Teapot"))).1)
  = true
  ∧ EntityBase.__eq__ (product (VInt 7))
      (EntityBase.Instance (EntityBase.__new__ Product (Some (raw_plain (VInt 8) "Kettle"))).1)
    = false
  ∧ EntityBase.__eq__
      (EntityBase.__new__ KeyClash (Some (<["Id" := VInt 7]> ∅))).1
      (EntityBase.Instance (EntityBase.__new__ KeyClash (Some (<["Id" := VInt 7]> ∅))).1)
    = false.
Proof.
  split_and!.
  - etrans.
    + apply (X10_hydrated_instances_compare_by_key Product "id" (IntegerProperty "Id" true)
               (raw_product (VInt 7)) (raw_plain (VInt 7) "Teapot") (VInt 7) (VInt 7));
        reflexivity.
    + reflexivity.
  - etrans.
    + apply (X10_hydrated_instances_compare_by_key Product "id" (IntegerProperty "Id" true)
               (raw_product (VInt 7)) (raw_plain (VInt 8) "Kettle") (VInt 7) (VInt 8));
        reflexivity.
    + reflexivity.
  - etrans.
    + apply (X10_hydrated_instances_compare_by_key KeyClash "id" (IntegerProperty "Id" true)
               (<["Id" := VInt 7]> ∅) (<["Id" := VInt 7]> ∅) (VInt 7) (VInt 7));
        reflexivity.
    + reflexivity.
Defined.

Lemma X11_keyless_witness :
  EntityBase.__eq__ blank_product (EntityBase.Instance blank_product) = false
  ∧ EntityBase.__eq__
      (EntityBase.__new__ Product (Some (<["ProductName" := VStr "Kettle"]> ∅))).1
      (EntityBase.Instance (product (VInt 7)))
    = false.
Proof.
  split.
  - apply (X11_keyless_construction_equals_nothing Product None).
    intros key prop raw _ Hraw. discriminate Hraw.
  - apply (X11_keyless_construction_equals_nothing Product
             (Some (<["ProductName" := VStr "Kettle"]> ∅))).
    intros key prop raw Hpk Hraw. vm_compute in Hpk.
    injection Hpk as <- <-. injection Hraw as <-. reflexivity.
Defined.

Lemma X12_symmetry_witness :
  EntityBase.__eq__ (product (VInt 7))
    (EntityBase.Instance (EntityBase.__new__ Product (Some (raw_plain (VInt 7) "Teapot"))).1)
  = EntityBase.__eq__ (EntityBase.__new__ Product (Some (raw_plain (VInt 7) "Teapot"))).1
      (EntityBase.Instance (product (VInt 7)))
  ∧ EntityBase.__eq__ (product (VInt 7)) (EntityBase.Instance (product (VBool true)))
    = false.
Proof.
  destruct (X12_eq_symmetric_transitive (product (VInt 7))
              (EntityBase.__new__ Product (Some (raw_plain (VInt 7) "Teapot"))).1
              (product (VBool true)))
    as (Hsym & _); [reflexivity | reflexivity | reflexivity |].
  split; [exact Hsym | reflexivity].
Defined.

Lemma X13_empty_part_witness :
  EntityBase.__odata_url__ Note = inr "Entities"
  ∧ EntityBase.__odata_url__
      {| __name__ := "Root"; __odata_url_base__ := "https://svc/odata/";
         __odata_collection__ := ""; __odata_type__ := "ODataSchema.Entity";
         declared_properties := @nil (string * descriptor related) |}
    = inr "https://svc/odata/".
Proof.
  split.
  - destruct (X13_url_with_empty_part Note) as (Hbase & _). apply Hbase. reflexivity.
  - destruct (X13_url_with_empty_part
                {| __name__ := "Root"; __odata_url_base__ := "https://svc/odata/";
                   __odata_collection__ := ""; __odata_type__ := "ODataSchema.Entity";
                   declared_properties := @nil (string * descriptor related) |})
      as (_ & Hcoll).
    apply Hcoll. reflexivity.
Defined.


End Samples_more.
